(** * AnyioTyper: the synchronous bridge over asynchronous command handlers

    A shallow embedding of [src/anyio_typer/__init__.py]: the bridge
    constructor [_wrap] with its inner [sync_func] and [_main], the two
    registration decorators [anyio_callback] and [anyio_command] of the
    [AnyioTyper] facade, and the module-level [run].

    Python objects that the code shares by reference (the [options] dicts)
    live in an explicit heap; coroutines are finite trees of the effects an
    awaited handler can perform, and an event loop is the function that
    drives such a tree to its outcome. *)

From Stdlib Require Import ZArith.
From stdpp Require Import base option strings list gmap.

Set Warnings "-register-all".

Local Open Scope string_scope.
Local Open Scope list_scope.

(** ** Python values, exceptions and outcomes *)

(** Heap addresses of dict objects. *)
Definition loc := positive.

(** The values handlers receive and return.  A [VDict] is a dict taken by
    value (the fresh [kwargs] dict of one call); a [VRef] is a reference to
    a dict object that lives in the heap and may be aliased. *)
Inductive value : Type :=
| VNone
| VBool (b : bool)
| VInt (n : Z)
| VStr (s : string)
| VTuple (items : list value)
| VDict (items : list (string * value))
| VRef (l : loc).

(** An exception: the name of its class and its message. *)
Record exn := Exn { exc_type : string; exc_msg : string }.

Definition RuntimeError (msg : string) : exn := Exn "RuntimeError" msg.
Definition LookupError (msg : string) : exn := Exn "LookupError" msg.
Definition TypeError (msg : string) : exn := Exn "TypeError" msg.

(** What a call produces: a returned value or a raised exception. *)
Inductive result (A : Type) : Type :=
| Ok (a : A)
| Exc (e : exn).
Arguments Ok {A} a.
Arguments Exc {A} e.

(** ** The state of the calling thread *)

Record thread_state := ThreadState {
  heap : gmap loc (gmap string value);
  current_async_library : option string;
  stdout : list string
}.

Definition set_heap (h : gmap loc (gmap string value)) (w : thread_state)
  : thread_state :=
  ThreadState h (current_async_library w) (stdout w).

Definition set_current_async_library (lib : option string) (w : thread_state)
  : thread_state :=
  ThreadState (heap w) lib (stdout w).

Definition write_stdout (line : string) (w : thread_state) : thread_state :=
  ThreadState (heap w) (current_async_library w) (stdout w ++ [line]).

(** [d[key] = v] on the dict object at [l]. *)
Definition dict_setitem (l : loc) (key : string) (v : value)
    (w : thread_state) : thread_state :=
  set_heap (<[l := <[key := v]> (default ∅ (heap w !! l))]> (heap w)) w.

(** Synchronous code: a state transformer that returns or raises. *)
Definition M (A : Type) : Type := thread_state -> result A * thread_state.

Definition ret {A} (a : A) : M A := fun w => (Ok a, w).
Definition raise {A} (e : exn) : M A := fun w => (Exc e, w).
Definition bind {A B} (m : M A) (f : A -> M B) : M B :=
  fun w => match m w with
           | (Ok a, w') => f a w'
           | (Exc e, w') => (Exc e, w')
           end.

Notation "'let*' x := m 'in' k" := (bind m (fun x => k))
  (at level 10, x name, m at level 100, k at level 200, only parsing).

(** ** Coroutines and event loops *)

(** The event loop a coroutine finds itself running on. *)
Record event_loop := EventLoop {
  loop_backend : string;
  loop_options : gmap string value
}.

(** A coroutine is the tree of what an awaited handler does: it returns,
    raises, prints a line, yields to the loop at a checkpoint, looks at the
    loop that runs it, or runs synchronous code on the thread. *)
Inductive coro : Type :=
| Return (v : value)
| Raise (e : exn)
| Emit (line : string) (k : coro)
| Checkpoint (k : coro)
| GetLoop (k : event_loop -> coro)
| Sync (f : M value) (k : result value -> coro).

(** [await c] followed by the rest [f] of an [async def] body. *)
Fixpoint await (c : coro) (f : value -> coro) : coro :=
  match c with
  | Return v => f v
  | Raise e => Raise e
  | Emit line k => Emit line (await k f)
  | Checkpoint k => Checkpoint (await k f)
  | GetLoop k => GetLoop (fun l => await (k l) f)
  | Sync g k => Sync g (fun r => await (k r) f)
  end.

(** An event loop driving a coroutine to completion. *)
Fixpoint drive (loop : event_loop) (c : coro) (w : thread_state)
  : result value * thread_state :=
  match c with
  | Return v => (Ok v, w)
  | Raise e => (Exc e, w)
  | Emit line k => drive loop k (write_stdout line w)
  | Checkpoint k => drive loop k w
  | GetLoop k => drive loop (k loop) w
  | Sync g k => let '(r, w') := g w in drive loop (k r) w'
  end.

(** A fresh event loop is created, marks the thread as running its
    library while it drives [c], and is torn down afterwards. *)
Definition run_on_fresh_loop (loop : event_loop) (c : coro) : M value :=
  fun w =>
    let '(r, w') :=
      drive loop c (set_current_async_library (Some (loop_backend loop)) w) in
    (r, set_current_async_library None w').

(** ** The runtime's blocking-run entry point *)

(** The backends the runtime knows: the docstring of [anyio_command] names
    them, "currently either asyncio or trio". *)
Definition BACKENDS : list string := ["asyncio"; "trio"].

Definition get_async_backend (backend : string) : option string :=
  if bool_decide (backend ∈ BACKENDS) then Some backend else None.

(** Modelled from the spec: [anyio.run], called with the entry point [func],
    its positional arguments, a backend name and a backend options dict: the
    blocking-run entry point of the structured-concurrency runtime, which
    is a library outside this repository.  It refuses to start when the
    thread already runs a loop, refuses an unknown backend name, and
    otherwise drives the coroutine of [func] applied to [args] on a fresh loop of the named backend,
    configured by the content the options dict has at that moment; it returns
    what the coroutine returns and lets its exception through. *)
Definition anyio_run (func : list value -> coro) (args : list value)
    (backend : string) (backend_options : loc) : M value :=
  fun w =>
    match current_async_library w with
    | Some lib =>
        (Exc (RuntimeError ("Already running " ++ lib ++ " in this thread")), w)
    | None =>
        match get_async_backend backend with
        | None => (Exc (LookupError ("No such backend: " ++ backend)), w)
        | Some b =>
            let opts := default ∅ (heap w !! backend_options) in
            run_on_fresh_loop (EventLoop b opts) (func args) w
        end
    end.

(** ** Function objects *)

Inductive param_kind : Type :=
| PositionalOrKeyword
| VarPositional
| KeywordOnly
| VarKeyword.

(** The attributes of a function object that introspection reads: the ones
    [functools.wraps] assigns ([fn_module], [fn_name], [fn_qualname],
    [fn_doc], [fn_annotations]) or updates ([fn_dict]), and the ones that
    stay with the function's own code ([fn_params], [fn_defaults]). *)
Record function_attrs := FunctionAttrs {
  fn_module : string;
  fn_name : string;
  fn_qualname : string;
  fn_doc : option string;
  fn_annotations : list (string * string);
  fn_dict : list (string * value);
  fn_params : list (string * param_kind);
  fn_defaults : list (string * value)
}.

(** An asynchronous handler, [Callable[P, Awaitable[T]]]: calling it with
    positional and keyword arguments gives the coroutine to await.  A call
    that does not fit the signature is a coroutine that raises. *)
Record async_function := AsyncFunction {
  af_attrs : function_attrs;
  af_body : list value -> list (string * value) -> coro
}.

(** The function object that [_wrap] returns: the attributes of
    [sync_func], what [wraps] recorded as [__wrapped__], and the three
    variables of [_wrap] that the body of [sync_func] closes over. *)
Record sync_function := SyncFunction {
  sf_attrs : function_attrs;
  sf_wrapped : option async_function;
  cell_func : async_function;
  cell_backend : string;
  cell_options : loc
}.

(** [functools.update_wrapper] with the default WRAPPER_ASSIGNMENTS and
    WRAPPER_UPDATES: the wrapped function's module, name, qualified name,
    annotations and docstring replace the wrapper's, its [__dict__] is
    merged into the wrapper's, and [__wrapped__] points at it. *)
Definition dict_update (d upd : list (string * value))
  : list (string * value) :=
  filter (fun kv => bool_decide (kv.1 ∉ upd.*1)) d ++ upd.

Definition wraps (wrapped : async_function) (wrapper : sync_function)
  : sync_function :=
  let a := af_attrs wrapped in
  let own := sf_attrs wrapper in
  {| sf_attrs :=
       {| fn_module := fn_module a;
          fn_name := fn_name a;
          fn_qualname := fn_qualname a;
          fn_doc := fn_doc a;
          fn_annotations := fn_annotations a;
          fn_dict := dict_update (fn_dict own) (fn_dict a);
          fn_params := fn_params own;
          fn_defaults := fn_defaults own |};
     sf_wrapped := Some wrapped;
     cell_func := cell_func wrapper;
     cell_backend := cell_backend wrapper;
     cell_options := cell_options wrapper |}.

(** ** The bridge constructor *)

(** The dict objects that the module creates when its [def] statements are
    executed: each [options: dict = {}] in a signature evaluates its own
    [{}] once, so [_wrap], [anyio_callback], [anyio_command] and [run] each
    own one default object. *)
Definition _wrap_default_options : loc := 1%positive.
Definition anyio_callback_default_options : loc := 2%positive.
Definition anyio_command_default_options : loc := 3%positive.
Definition run_default_options : loc := 4%positive.

(** The heap right after the module is imported. *)
Definition module_heap : gmap loc (gmap string value) :=
  <[_wrap_default_options := ∅]>
  (<[anyio_callback_default_options := ∅]>
  (<[anyio_command_default_options := ∅]>
  (<[run_default_options := ∅]> ∅))).

Definition initial_state : thread_state := ThreadState module_heap None [].

(** [async def _main(args, kwargs): return await func( *args, **kwargs)] *)
Definition _main (func : async_function) (argv : list value) : coro :=
  match argv with
  | [VTuple args; VDict kwargs] =>
      await (af_body func args kwargs) (fun v => Return v)
  | _ => Raise (TypeError "_main() takes 2 positional arguments")
  end.

(** The body of [sync_func( *args, **kwargs)], over the variables [func],
    [backend] and [options] of the enclosing [_wrap]. *)
Definition sync_func (func : async_function) (backend : string)
    (options : loc) (args : list value) (kwargs : list (string * value))
  : M value :=
  anyio_run (_main func) [VTuple args; VDict kwargs] backend options.

(** What the [def sync_func] statement alone creates. *)
Definition sync_func_attrs : function_attrs :=
  {| fn_module := "anyio_typer";
     fn_name := "sync_func";
     fn_qualname := "AnyioTyper._wrap.<locals>.sync_func";
     fn_doc := None;
     fn_annotations :=
       [("args", "P.args"); ("kwargs", "P.kwargs"); ("return", "T")];
     fn_dict := [];
     fn_params := [("args", VarPositional); ("kwargs", VarKeyword)];
     fn_defaults := [] |}.

(** [AnyioTyper._wrap(func, backend="asyncio", options={})]; an argument
    left out at the call is [None] here and takes the default of the
    signature. *)
Definition _wrap (func : async_function) (backend : option string)
    (options : option loc) : sync_function :=
  let backend := default "asyncio" backend in
  let options := default _wrap_default_options options in
  wraps func
    {| sf_attrs := sync_func_attrs;
       sf_wrapped := None;
       cell_func := func;
       cell_backend := backend;
       cell_options := options |}.

(** Calling a function object made by [_wrap] runs the body of [sync_func]
    with the cells of its closure. *)
Definition call (g : sync_function) (args : list value)
    (kwargs : list (string * value)) : M value :=
  sync_func (cell_func g) (cell_backend g) (cell_options g) args kwargs.

(** ** Introspection *)

(** Anything registered or inspected is one of the two kinds of function
    object. *)
Inductive callable : Type :=
| AsyncCallable (f : async_function)
| SyncCallable (g : sync_function).

Definition attrs_of (c : callable) : function_attrs :=
  match c with
  | AsyncCallable f => af_attrs f
  | SyncCallable g => sf_attrs g
  end.

(** [inspect.unwrap]: follow [__wrapped__] to the innermost function. *)
Definition unwrap (c : callable) : callable :=
  match c with
  | AsyncCallable f => AsyncCallable f
  | SyncCallable g =>
      match sf_wrapped g with
      | Some f => AsyncCallable f
      | None => SyncCallable g
      end
  end.

Definition lookup_assoc {A} (key : string) (l : list (string * A))
  : option A :=
  snd <$> List.find (fun kv => bool_decide (kv.1 = key)) l.

Record inspect_Parameter := MkParameter {
  p_name : string;
  p_kind : param_kind;
  p_annotation : option string;
  p_default : option value
}.

(** [inspect.signature], which reads the parameters, their annotations and
    their defaults off the unwrapped function. *)
Definition signature (c : callable) : list inspect_Parameter :=
  let a := attrs_of (unwrap c) in
  map (fun nk : string * param_kind =>
         MkParameter nk.1 nk.2
           (lookup_assoc nk.1 (fn_annotations a))
           (lookup_assoc nk.1 (fn_defaults a)))
      (fn_params a).

Record ParamMeta := MkParamMeta {
  pm_name : string;
  pm_default : option value;
  pm_annotation : option string
}.

(** Modelled from the spec: how the dispatcher derives the declared
    parameters of a command from its callback (typer's
    [get_params_from_function], not in this repository): one declaration per
    parameter of the signature, typed by the callback's own type hints where
    it has one for that name. *)
Definition get_params_from_function (c : callable) : list ParamMeta :=
  map (fun p =>
         MkParamMeta (p_name p) (p_default p)
           (match lookup_assoc (p_name p) (fn_annotations (attrs_of c)) with
            | Some t => Some t
            | None => p_annotation p
            end))
      (signature c).

(** ** The dispatcher *)

(** A parameter that is either [Default(x)], the dispatcher's marker for
    "not set by the caller", or a value given outright. *)
Inductive placeholder (A : Type) : Type :=
| Default (a : A)
| Explicit (a : A).
Arguments Default {A} a.
Arguments Explicit {A} a.

(** The keyword parameters of [Typer.callback]. *)
Record callback_kwargs := CallbackKwargs {
  cb_cls : placeholder (option string);
  cb_invoke_without_command : placeholder bool;
  cb_no_args_is_help : placeholder bool;
  cb_subcommand_metavar : placeholder (option string);
  cb_chain : placeholder bool;
  cb_result_callback : placeholder (option string);
  cb_context_settings : placeholder (option loc);
  cb_help : placeholder (option string);
  cb_epilog : placeholder (option string);
  cb_short_help : placeholder (option string);
  cb_options_metavar : placeholder (option string);
  cb_add_help_option : placeholder bool;
  cb_hidden : placeholder bool;
  cb_deprecated : placeholder bool;
  cb_rich_help_panel : placeholder (option string)
}.

(** The keyword parameters of [Typer.command]. *)
Record command_kwargs := CommandKwargs {
  cmd_cls : option string;
  cmd_context_settings : option loc;
  cmd_help : option string;
  cmd_epilog : option string;
  cmd_short_help : option string;
  cmd_options_metavar : string;
  cmd_add_help_option : bool;
  cmd_no_args_is_help : bool;
  cmd_hidden : bool;
  cmd_deprecated : bool;
  cmd_rich_help_panel : placeholder (option string)
}.

(** The keyword parameters of [Typer.__init__]. *)
Record typer_kwargs := TyperKwargs {
  ty_name : placeholder (option string);
  ty_cls : placeholder (option string);
  ty_invoke_without_command : placeholder bool;
  ty_no_args_is_help : placeholder bool;
  ty_subcommand_metavar : placeholder (option string);
  ty_chain : placeholder bool;
  ty_result_callback : placeholder (option string);
  ty_context_settings : placeholder (option loc);
  ty_callback : placeholder (option string);
  ty_help : placeholder (option string);
  ty_epilog : placeholder (option string);
  ty_short_help : placeholder (option string);
  ty_options_metavar : placeholder string;
  ty_add_help_option : placeholder bool;
  ty_hidden : placeholder bool;
  ty_deprecated : placeholder bool;
  ty_add_completion : bool;
  ty_rich_markup_mode : option string;
  ty_rich_help_panel : placeholder (option string);
  ty_suggest_commands : bool;
  ty_pretty_exceptions_enable : bool;
  ty_pretty_exceptions_show_locals : bool;
  ty_pretty_exceptions_short : bool
}.

(** What the dispatcher keeps of one registered subcommand and of the
    registered callback. *)
Record CommandInfo := MkCommandInfo {
  ci_name : option string;
  ci_kwargs : command_kwargs;
  ci_callback : sync_function
}.

Record TyperInfo := MkTyperInfo {
  ti_kwargs : callback_kwargs;
  ti_callback : sync_function
}.

(** The application object. *)
Record Typer := MkTyper {
  typer_init : typer_kwargs;
  registered_commands : list CommandInfo;
  registered_callback : option TyperInfo
}.

(** Modelled from the spec: the dispatcher's constructor and its two native
    registration entry points (typer's [Typer.__init__], [Typer.command] and
    [Typer.callback], not in this repository).  The constructor starts with
    nothing registered; [command] appends the synchronous handler with its
    name and configuration to the registered commands; [callback] makes it
    the registered callback; both decorators give the handler back. *)
Definition Typer_init (kw : typer_kwargs) : Typer :=
  MkTyper kw [] None.

Definition Typer_command (name : option string) (kw : command_kwargs)
    (f : sync_function) (self : Typer) : sync_function * Typer :=
  (f, MkTyper (typer_init self)
        (registered_commands self ++ [MkCommandInfo name kw f])
        (registered_callback self)).

Definition Typer_callback (kw : callback_kwargs)
    (f : sync_function) (self : Typer) : sync_function * Typer :=
  (f, MkTyper (typer_init self)
        (registered_commands self)
        (Some (MkTyperInfo kw f))).

(** ** The registration facade *)

Section Facade.

(** [typer.main.DEFAULT_MARKUP_MODE], a constant of the dispatcher. *)
Variable DEFAULT_MARKUP_MODE : option string.

(** [Typer.__call__], the dispatcher's invoke-and-exit entry point: it parses
    the process arguments, invokes the registered handler and owns the exit
    path.  Nothing is assumed about it. *)
Variable Typer_call : Typer -> M value.

(** The defaults in the signature of [AnyioTyper.__init__]. *)
Definition AnyioTyper_defaults : typer_kwargs :=
  {| ty_name := Default None;
     ty_cls := Default None;
     ty_invoke_without_command := Default false;
     ty_no_args_is_help := Default false;
     ty_subcommand_metavar := Default None;
     ty_chain := Default false;
     ty_result_callback := Default None;
     ty_context_settings := Default None;
     ty_callback := Default None;
     ty_help := Default None;
     ty_epilog := Default None;
     ty_short_help := Default None;
     ty_options_metavar := Default "[OPTIONS]";
     ty_add_help_option := Default true;
     ty_hidden := Default false;
     ty_deprecated := Default false;
     ty_add_completion := true;
     ty_rich_markup_mode := DEFAULT_MARKUP_MODE;
     ty_rich_help_panel := Default None;
     ty_suggest_commands := true;
     ty_pretty_exceptions_enable := true;
     ty_pretty_exceptions_show_locals := true;
     ty_pretty_exceptions_short := true |}.

(** [AnyioTyper.__init__]: every keyword goes to [super().__init__]. *)
Definition AnyioTyper (kw : typer_kwargs) : Typer :=
  let 'TyperKwargs name cls invoke_without_command no_args_is_help
        subcommand_metavar chain result_callback context_settings callback
        help epilog short_help options_metavar add_help_option hidden
        deprecated add_completion rich_markup_mode rich_help_panel
        suggest_commands pretty_exceptions_enable
        pretty_exceptions_show_locals pretty_exceptions_short := kw in
  Typer_init
    {| ty_name := name;
       ty_cls := cls;
       ty_invoke_without_command := invoke_without_command;
       ty_no_args_is_help := no_args_is_help;
       ty_subcommand_metavar := subcommand_metavar;
       ty_chain := chain;
       ty_result_callback := result_callback;
       ty_context_settings := context_settings;
       ty_callback := callback;
       ty_help := help;
       ty_epilog := epilog;
       ty_short_help := short_help;
       ty_options_metavar := options_metavar;
       ty_add_help_option := add_help_option;
       ty_hidden := hidden;
       ty_deprecated := deprecated;
       ty_add_completion := add_completion;
       ty_rich_markup_mode := rich_markup_mode;
       ty_rich_help_panel := rich_help_panel;
       ty_suggest_commands := suggest_commands;
       ty_pretty_exceptions_enable := pretty_exceptions_enable;
       ty_pretty_exceptions_show_locals := pretty_exceptions_show_locals;
       ty_pretty_exceptions_short := pretty_exceptions_short |}.

(** The defaults in the signature of [anyio_callback]. *)
Definition anyio_callback_defaults : callback_kwargs :=
  {| cb_cls := Default None;
     cb_invoke_without_command := Default false;
     cb_no_args_is_help := Default false;
     cb_subcommand_metavar := Default None;
     cb_chain := Default false;
     cb_result_callback := Default None;
     cb_context_settings := Default None;
     cb_help := Default None;
     cb_epilog := Default None;
     cb_short_help := Default None;
     cb_options_metavar := Default None;
     cb_add_help_option := Default true;
     cb_hidden := Default false;
     cb_deprecated := Default false;
     cb_rich_help_panel := Default None |}.

(** [AnyioTyper.anyio_callback(backend="asyncio", options={}, *, ...)]
    returns its inner [decorator], which registers on [self] and hands the
    handler back. *)
Definition anyio_callback (backend : option string) (options : option loc)
    (kw : callback_kwargs)
  : async_function -> Typer -> async_function * Typer :=
  let backend := default "asyncio" backend in
  let options := default anyio_callback_default_options options in
  let 'CallbackKwargs cls invoke_without_command no_args_is_help
        subcommand_metavar chain result_callback context_settings help
        epilog short_help options_metavar add_help_option hidden deprecated
        rich_help_panel := kw in
  fun async_func self =>
    let '(_, self) :=
      Typer_callback
        {| cb_cls := cls;
           cb_invoke_without_command := invoke_without_command;
           cb_no_args_is_help := no_args_is_help;
           cb_subcommand_metavar := subcommand_metavar;
           cb_chain := chain;
           cb_result_callback := result_callback;
           cb_context_settings := context_settings;
           cb_help := help;
           cb_epilog := epilog;
           cb_short_help := short_help;
           cb_options_metavar := options_metavar;
           cb_add_help_option := add_help_option;
           cb_hidden := hidden;
           cb_deprecated := deprecated;
           cb_rich_help_panel := rich_help_panel |}
        (_wrap async_func (Some backend) (Some options)) self in
    (async_func, self).

(** The defaults in the signature of [anyio_command]. *)
Definition anyio_command_defaults : command_kwargs :=
  {| cmd_cls := None;
     cmd_context_settings := None;
     cmd_help := None;
     cmd_epilog := None;
     cmd_short_help := None;
     cmd_options_metavar := "[OPTIONS]";
     cmd_add_help_option := true;
     cmd_no_args_is_help := false;
     cmd_hidden := false;
     cmd_deprecated := false;
     cmd_rich_help_panel := Default None |}.

(** [AnyioTyper.anyio_command(name=None, backend="asyncio", options={}, *,
    ...)] returns its inner [decorator]. *)
Definition anyio_command (name : option string) (backend : option string)
    (options : option loc) (kw : command_kwargs)
  : async_function -> Typer -> async_function * Typer :=
  let backend := default "asyncio" backend in
  let options := default anyio_command_default_options options in
  let 'CommandKwargs cls context_settings help epilog short_help
        options_metavar add_help_option no_args_is_help hidden deprecated
        rich_help_panel := kw in
  fun async_func self =>
    let '(_, self) :=
      Typer_command name
        {| cmd_cls := cls;
           cmd_context_settings := context_settings;
           cmd_help := help;
           cmd_epilog := epilog;
           cmd_short_help := short_help;
           cmd_options_metavar := options_metavar;
           cmd_add_help_option := add_help_option;
           cmd_no_args_is_help := no_args_is_help;
           cmd_hidden := hidden;
           cmd_deprecated := deprecated;
           cmd_rich_help_panel := rich_help_panel |}
        (_wrap async_func (Some backend) (Some options)) self in
    (async_func, self).

(** [AnyioTyper(add_completion=False)] *)
Definition run_app_kwargs : typer_kwargs :=
  let 'TyperKwargs name cls invoke_without_command no_args_is_help
        subcommand_metavar chain result_callback context_settings callback
        help epilog short_help options_metavar add_help_option hidden
        deprecated _ rich_markup_mode rich_help_panel
        suggest_commands pretty_exceptions_enable
        pretty_exceptions_show_locals pretty_exceptions_short :=
    AnyioTyper_defaults in
  TyperKwargs name cls invoke_without_command no_args_is_help
    subcommand_metavar chain result_callback context_settings callback
    help epilog short_help options_metavar add_help_option hidden
    deprecated false rich_markup_mode rich_help_panel
    suggest_commands pretty_exceptions_enable
    pretty_exceptions_show_locals pretty_exceptions_short.

(** The module-level [run(function, backend="asyncio", options={})]. *)
Definition run (function : async_function) (backend : option string)
    (options : option loc) : M value :=
  let backend := default "asyncio" backend in
  let options := default run_default_options options in
  let app := AnyioTyper run_app_kwargs in
  let '(_, app) :=
    anyio_command None (Some backend) (Some options) anyio_command_defaults
      function app in
  let* _ := Typer_call app in
  ret VNone.

End Facade.

(** ** Backend-agnostic handlers *)

(** A handler is backend-agnostic when awaiting it directly on a fresh loop
    gives the same outcome whichever backend that loop belongs to. *)
Definition backend_agnostic (F : async_function) : Prop :=
  forall args kwargs b1 b2 opts w,
    run_on_fresh_loop (EventLoop b1 opts) (af_body F args kwargs) w =
    run_on_fresh_loop (EventLoop b2 opts) (af_body F args kwargs) w.

(** Synchronous code that neither reads nor sets the thread's record of the
    running library. *)
Definition ignores_running_library (g : M value) : Prop :=
  forall lib w,
    g (set_current_async_library lib w) =
    let '(r, w') := g w in (r, set_current_async_library lib w').

(** A coroutine that never looks at the loop that runs it. *)
Fixpoint loop_independent (c : coro) : Prop :=
  match c with
  | Return _ | Raise _ => True
  | Emit _ k | Checkpoint k => loop_independent k
  | GetLoop _ => False
  | Sync g k => ignores_running_library g /\ forall r, loop_independent (k r)
  end.

(** ** Handlers used as concrete inputs *)

(** The handler of [tests/test_execution.py]:
    [async def hello(name: User = User.rick) -> None], which prints a
    greeting. *)
Definition hello_attrs : function_attrs :=
  {| fn_module := "test_execution";
     fn_name := "hello";
     fn_qualname := "test_enum_choice.<locals>.hello";
     fn_doc := None;
     fn_annotations := [("name", "User"); ("return", "None")];
     fn_dict := [];
     fn_params := [("name", PositionalOrKeyword)];
     fn_defaults := [("name", VStr "Rick")] |}.

(** The members of [User], each taken as its string value. *)
Definition User_values : list string := ["Rick"; "Morty"].

(** [print(f"Hello {name.value}!")]: only a member of [User] has a
    [value]. *)
Definition greet (name : value) : coro :=
  match name with
  | VStr s =>
      if bool_decide (s ∈ User_values)
      then Emit ("Hello " ++ s ++ "!") (Return VNone)
      else Raise (Exn "AttributeError" "'str' object has no attribute 'value'")
  | _ => Raise (Exn "AttributeError" "object has no attribute 'value'")
  end.

Definition hello : async_function :=
  {| af_attrs := hello_attrs;
     af_body := fun args kwargs =>
       if forallb (fun kv : string * value => bool_decide (kv.1 = "name"))
            kwargs
       then
         match args, lookup_assoc "name" kwargs with
         | [], None => greet (VStr "Rick")
         | [name], None | [], Some name => greet name
         | _, _ => Raise (TypeError "hello() got too many arguments")
         end
       else Raise (TypeError "hello() got an unexpected keyword argument")
  |}.

Definition plain_attrs (name : string) : function_attrs :=
  {| fn_module := "__main__";
     fn_name := name;
     fn_qualname := name;
     fn_doc := None;
     fn_annotations := [];
     fn_dict := [];
     fn_params := [];
     fn_defaults := [] |}.

(** A handler that fails. *)
Definition boom : async_function :=
  {| af_attrs := plain_attrs "boom";
     af_body := fun _ _ =>
       Checkpoint (Raise (Exn "ValueError" "bad input")) |}.

(** A handler that reports how the loop it runs on was configured. *)
Definition uses_uvloop : async_function :=
  {| af_attrs := plain_attrs "uses_uvloop";
     af_body := fun _ _ =>
       GetLoop (fun loop =>
         Return (default (VBool false) (loop_options loop !! "use_uvloop")))
  |}.

(** A handler that reports which library drives it. *)
Definition which_library : async_function :=
  {| af_attrs := plain_attrs "which_library";
     af_body := fun _ _ =>
       GetLoop (fun loop => Return (VStr (loop_backend loop))) |}.

(** A handler that calls an already generated wrapper from inside the
    running loop. *)
Definition nested (g : sync_function) : async_function :=
  {| af_attrs := plain_attrs "nested";
     af_body := fun args kwargs =>
       Sync (call g args kwargs)
            (fun r => match r with Ok v => Return v | Exc e => Raise e end)
  |}.

(** Modelled from the spec: a dispatch cycle for an application with one
    registered command, given the arguments already parsed from the command
    line: the command's handler is invoked with them and its outcome is the
    outcome of the cycle. *)
Definition invoke_sole_command (args : list value)
    (kwargs : list (string * value)) (app : Typer) : M value :=
  match registered_commands app with
  | [ci] => call (ci_callback ci) args kwargs
  | _ => raise (Exn "UsageError" "expected exactly one command")
  end.

(** A heap with one more dict object, empty, at address [l]. *)
Definition with_dict (l : loc) (w : thread_state) : thread_state :=
  set_heap (<[l := ∅]> (heap w)) w.

(** ** Handlers without synchronous calls *)

(** A coroutine that runs no synchronous code on the thread: all it does is
    print, yield, look at its loop, and return or raise. *)
Fixpoint no_sync (c : coro) : Prop :=
  match c with
  | Return _ | Raise _ => True
  | Emit _ k | Checkpoint k => no_sync k
  | GetLoop k => forall loop, no_sync (k loop)
  | Sync _ _ => False
  end.

(** ** The deprecated entry points *)

(** A dict display such as [{"use_uvloop": True}] creates a new dict object
    at an address no live object has. *)
Definition new_dict (content : gmap string value) (w : thread_state)
  : loc * thread_state :=
  let l := fresh (dom (heap w)) in
  (l, set_heap (<[l := content]> (heap w)) w).

(** A warning issued through [warnings.warn]: its category and message. *)
Record warning := Warning {
  warning_category : string;
  warning_message : string
}.

(** The thread's state together with the warnings issued so far. *)
Record process_state := ProcessState {
  thread : thread_state;
  warnings : list warning
}.

Definition warn (category message : string) (p : process_state)
  : process_state :=
  ProcessState (thread p) (warnings p ++ [Warning category message]).

(** [@deprecated(message)] on a function: each call first issues a
    DeprecationWarning with that message and then runs the function. *)
Definition deprecated {A} (message : string)
    (f : process_state -> A * process_state)
  : process_state -> A * process_state :=
  fun p => f (warn "DeprecationWarning" message p).

(** Synchronous code of the thread, run inside the process. *)
Definition on_thread {A} (m : M A)
  : process_state -> result A * process_state :=
  fun p => let '(r, t) := m (thread p) in (r, ProcessState t (warnings p)).

Definition dquote : string := String (Ascii.ascii_of_nat 34) EmptyString.
Definition newline : string := String (Ascii.ascii_of_nat 10) EmptyString.

(** The messages given to [@deprecated], the adjacent literals joined. *)
Definition uvloop_command_message : string :=
  "winloop & uvloop together have now been supported since anyio"
  ++ " 4.11+, try doing this instead" ++ newline
  ++ newline ++ "@app.anyio_command(options={" ++ dquote ++ "use_uvloop"
  ++ dquote ++ ": True},)" ++ newline
  ++ "def myfunc(...):"
  ++ newline ++ "    ...".

Definition trio_command_message : string :=
  "Functionality for wrapping Trio is obsolete use" ++ newline
  ++ "`anyio_command(backend=" ++ dquote ++ "trio" ++ dquote ++ ")` instead".

Definition uvloop_run_message : string :=
  "winloop support was added in anyio in 4.11+ use "
  ++ "`run(func, options={" ++ dquote ++ "use_uvloop" ++ dquote
  ++ ": True})` or"
  ++ "`run(func, " ++ dquote ++ "asyncio" ++ dquote ++ ", {" ++ dquote
  ++ "use_uvloop" ++ dquote ++ ": True})`  instead".

Definition trio_run_message : string :=
  "Functionality for wrapping Trio is obsolete use" ++ newline
  ++ "`run(func, " ++ dquote ++ "trio" ++ dquote ++ ")` instead".

Section DeprecatedEntryPoints.

Variable DEFAULT_MARKUP_MODE : option string.
Variable Typer_call : Typer -> M value.

(** [AnyioTyper.uvloop_command(name=None, *, ...)]: a pre-filled call of
    [anyio_command] with the asyncio backend and a new options dict. *)
Definition uvloop_command (name : option string) (kw : command_kwargs)
  : process_state ->
    (async_function -> Typer -> async_function * Typer) * process_state :=
  deprecated uvloop_command_message (fun p =>
    let 'CommandKwargs cls context_settings help epilog short_help
          options_metavar add_help_option no_args_is_help hidden
          is_deprecated rich_help_panel := kw in
    let '(options, t) :=
      new_dict {["use_uvloop" := VBool true]} (thread p) in
    (anyio_command name (Some "asyncio") (Some options)
       {| cmd_cls := cls;
          cmd_context_settings := context_settings;
          cmd_help := help;
          cmd_epilog := epilog;
          cmd_short_help := short_help;
          cmd_options_metavar := options_metavar;
          cmd_add_help_option := add_help_option;
          cmd_no_args_is_help := no_args_is_help;
          cmd_hidden := hidden;
          cmd_deprecated := is_deprecated;
          cmd_rich_help_panel := rich_help_panel |},
     ProcessState t (warnings p))).

(** [AnyioTyper.trio_command(name=None, *, ...)]: a pre-filled call of
    [anyio_command] with the trio backend; [options] is left out. *)
Definition trio_command (name : option string) (kw : command_kwargs)
  : process_state ->
    (async_function -> Typer -> async_function * Typer) * process_state :=
  deprecated trio_command_message (fun p =>
    let 'CommandKwargs cls context_settings help epilog short_help
          options_metavar add_help_option no_args_is_help hidden
          is_deprecated rich_help_panel := kw in
    (anyio_command name (Some "trio") None
       {| cmd_cls := cls;
          cmd_context_settings := context_settings;
          cmd_help := help;
          cmd_epilog := epilog;
          cmd_short_help := short_help;
          cmd_options_metavar := options_metavar;
          cmd_add_help_option := add_help_option;
          cmd_no_args_is_help := no_args_is_help;
          cmd_hidden := hidden;
          cmd_deprecated := is_deprecated;
          cmd_rich_help_panel := rich_help_panel |},
     p)).

(** The module-level [uvloop_run(function)]. *)
Definition uvloop_run (function : async_function)
  : process_state -> result value * process_state :=
  deprecated uvloop_run_message (fun p =>
    let '(options, t) :=
      new_dict {["use_uvloop" := VBool true]} (thread p) in
    on_thread
      (let* _ :=
         run DEFAULT_MARKUP_MODE Typer_call function (Some "asyncio")
           (Some options) in
       ret VNone)
      (ProcessState t (warnings p))).

(** The module-level [trio_run(function)]. *)
Definition trio_run (function : async_function)
  : process_state -> result value * process_state :=
  deprecated trio_run_message (fun p =>
    on_thread
      (let* _ :=
         run DEFAULT_MARKUP_MODE Typer_call function (Some "trio") None in
       ret VNone)
      p).

End DeprecatedEntryPoints.

(** The process right after the module is imported. *)
Definition initial_process : process_state := ProcessState initial_state [].

(** ** Calls that leave keywords out *)


(** The same for a callback registration entry point. *)
Record callback_call := CallbackCall {
  kwarg_cls : option (placeholder (option string));
  kwarg_invoke_without_command : option (placeholder (bool));
  kwarg_no_args_is_help : option (placeholder (bool));
  kwarg_subcommand_metavar : option (placeholder (option string));
  kwarg_chain : option (placeholder (bool));
  kwarg_result_callback : option (placeholder (option string));
  kwarg_context_settings : option (placeholder (option loc));
  kwarg_help : option (placeholder (option string));
  kwarg_epilog : option (placeholder (option string));
  kwarg_short_help : option (placeholder (option string));
  kwarg_options_metavar : option (placeholder (option string));
  kwarg_add_help_option : option (placeholder (bool));
  kwarg_hidden : option (placeholder (bool));
  kwarg_deprecated : option (placeholder (bool));
  kwarg_rich_help_panel : option (placeholder (option string))
}.






Definition no_callback_keywords : callback_call :=
  CallbackCall None None None None None None None None None None None None None None None.







(** ** Backends that interpret their options *)

(** Modelled from the spec: the runtime's blocking run when every backend
    interprets the options handed to it, which are keyword arguments for the
    backend implementation and are not enumerated by this repository.
    [configure backend options] is what the named backend makes of the
    content of the options dict: the configuration of the loop it starts, or
    the exception with which it refuses the options.  Everything else is as
    in [anyio_run]. *)
Definition anyio_run_with
    (configure : string -> gmap string value -> result (gmap string value))
    (func : list value -> coro) (args : list value)
    (backend : string) (backend_options : loc) : M value :=
  fun w =>
    match current_async_library w with
    | Some lib =>
        (Exc (RuntimeError ("Already running " ++ lib ++ " in this thread")), w)
    | None =>
        match get_async_backend backend with
        | None => (Exc (LookupError ("No such backend: " ++ backend)), w)
        | Some b =>
            match configure b (default ∅ (heap w !! backend_options)) with
            | Exc e => (Exc e, w)
            | Ok config => run_on_fresh_loop (EventLoop b config) (func args) w
            end
        end
    end.

(** Backends that take their options as they are: this is [anyio_run]. *)
Definition options_as_given (backend : string) (options : gmap string value)
  : result (gmap string value) :=
  Ok options.

(** Backends of which asyncio keeps the options it is given and trio
    ignores them. *)
Definition trio_ignores_options (backend : string)
    (options : gmap string value) : result (gmap string value) :=
  if bool_decide (backend = "trio") then Ok ∅ else Ok options.

(** Backends of which trio refuses every option with a TypeError. *)
Definition trio_refuses_options (backend : string)
    (options : gmap string value) : result (gmap string value) :=
  if bool_decide (backend = "trio") && negb (bool_decide (options = ∅))
  then Exc (TypeError "run() got an unexpected keyword argument")
  else Ok options.

(** The body of [sync_func] and the call of a wrapper over such a runtime. *)
Definition sync_func_with
    (configure : string -> gmap string value -> result (gmap string value))
    (func : async_function) (backend : string) (options : loc)
    (args : list value) (kwargs : list (string * value)) : M value :=
  anyio_run_with configure (_main func) [VTuple args; VDict kwargs]
    backend options.

Definition call_with
    (configure : string -> gmap string value -> result (gmap string value))
    (g : sync_function) (args : list value) (kwargs : list (string * value))
  : M value :=
  sync_func_with configure (cell_func g) (cell_backend g) (cell_options g)
    args kwargs.

(** A handler whose outcome does not depend on the loop that drives it,
    neither on its backend nor on how it was configured. *)
Definition loop_agnostic (F : async_function) : Prop :=
  forall args kwargs loop1 loop2 w,
    run_on_fresh_loop loop1 (af_body F args kwargs) w =
    run_on_fresh_loop loop2 (af_body F args kwargs) w.

(** * Properties *)

(** ** Driving an awaited coroutine *)

(** Awaiting [c] and continuing with [f] is driving [c] first and, when it
    returns, driving the continuation from the state it left. *)
Lemma drive_await (loop : event_loop) (c : coro) (f : value -> coro) :
  forall w,
    drive loop (await c f) w =
    match drive loop c w with
    | (Ok v, w') => drive loop (f v) w'
    | (Exc e, w') => (Exc e, w')
    end.
Proof.
  induction c as [v | e | line k IH | k IH | k IH | g k IH]; intros w; simpl.
  - reflexivity.
  - reflexivity.
  - apply IH.
  - apply IH.
  - apply IH.
  - destruct (g w) as [r w']. apply IH.
Qed.

(** [return await c] is [c]. *)
Lemma drive_await_return (loop : event_loop) (c : coro) (w : thread_state) :
  drive loop (await c (fun v => Return v)) w = drive loop c w.
Proof.
  rewrite drive_await.
  destruct (drive loop c w) as [[v | e] w']; reflexivity.
Qed.

(** [_main] receives the packed arguments and awaits the handler on them. *)
Lemma drive_main (loop : event_loop) (func : async_function)
    (args : list value) (kwargs : list (string * value)) (w : thread_state) :
  drive loop (_main func [VTuple args; VDict kwargs]) w =
  drive loop (af_body func args kwargs) w.
Proof. simpl. apply drive_await_return. Qed.

Lemma get_async_backend_known (backend : string) :
  backend ∈ BACKENDS -> get_async_backend backend = Some backend.
Proof.
  intros Hin. unfold get_async_backend.
  rewrite bool_decide_eq_true_2; [reflexivity | exact Hin].
Qed.

Lemma get_async_backend_unknown (backend : string) :
  backend ∉ BACKENDS -> get_async_backend backend = None.
Proof.
  intros Hnin. unfold get_async_backend.
  rewrite bool_decide_eq_false_2; [reflexivity | exact Hnin].
Qed.

(** ** The three ways an invocation of [sync_func] ends *)

Lemma sync_func_runs (func : async_function) (backend : string)
    (options : loc) (args : list value) (kwargs : list (string * value))
    (w : thread_state) :
  current_async_library w = None ->
  backend ∈ BACKENDS ->
  sync_func func backend options args kwargs w =
  run_on_fresh_loop (EventLoop backend (default ∅ (heap w !! options)))
    (af_body func args kwargs) w.
Proof.
  intros Hidle Hknown. unfold sync_func, anyio_run.
  rewrite Hidle, (get_async_backend_known _ Hknown).
  unfold run_on_fresh_loop. rewrite drive_main. reflexivity.
Qed.

Lemma sync_func_loop_running (func : async_function) (backend : string)
    (options : loc) (args : list value) (kwargs : list (string * value))
    (w : thread_state) (lib : string) :
  current_async_library w = Some lib ->
  sync_func func backend options args kwargs w =
  (Exc (RuntimeError ("Already running " ++ lib ++ " in this thread")), w).
Proof.
  intros Hbusy. unfold sync_func, anyio_run. rewrite Hbusy. reflexivity.
Qed.

Lemma sync_func_unknown_backend (func : async_function) (backend : string)
    (options : loc) (args : list value) (kwargs : list (string * value))
    (w : thread_state) :
  current_async_library w = None ->
  backend ∉ BACKENDS ->
  sync_func func backend options args kwargs w =
  (Exc (LookupError ("No such backend: " ++ backend)), w).
Proof.
  intros Hidle Hunknown. unfold sync_func, anyio_run.
  rewrite Hidle, (get_async_backend_unknown _ Hunknown). reflexivity.
Qed.

(** Calling what [_wrap] returned runs [sync_func] on the bound arguments
    of [_wrap]. *)
Lemma call_wrap (func : async_function) (backend : option string)
    (options : option loc) :
  call (_wrap func backend options) =
  sync_func func (default "asyncio" backend)
    (default _wrap_default_options options).
Proof. reflexivity. Qed.

Lemma asyncio_known : "asyncio" ∈ BACKENDS.
Proof. unfold BACKENDS. set_solver. Qed.

Lemma trio_known : "trio" ∈ BACKENDS.
Proof. unfold BACKENDS. set_solver. Qed.

(** ** The bridge returns what the handler returns *)

(** C1. On a thread that runs no event loop and for a backend the runtime
    knows, calling the wrapper that [_wrap] made from [F] gives the outcome
    (and leaves the state) that awaiting [F] on the same arguments gives on a
    fresh loop of that backend, configured by the options dict as it is at
    the call. *)
Theorem wrapper_returns_what_awaiting_handler_returns
    (F : async_function) (backend : option string) (options : option loc)
    (args : list value) (kwargs : list (string * value)) (w : thread_state) :
  current_async_library w = None ->
  default "asyncio" backend ∈ BACKENDS ->
  call (_wrap F backend options) args kwargs w =
  run_on_fresh_loop
    (EventLoop (default "asyncio" backend)
       (default ∅ (heap w !! default _wrap_default_options options)))
    (af_body F args kwargs) w.
Proof.
  intros Hidle Hknown. rewrite call_wrap.
  apply sync_func_runs; assumption.
Qed.

Lemma wrapper_returns_what_awaiting_handler_returns_witness :
  current_async_library initial_state = None /\
  default "asyncio" (Some "trio") ∈ BACKENDS /\
  call (_wrap hello (Some "trio") None) [] [("name", VStr "Morty")]
    initial_state =
  run_on_fresh_loop (EventLoop "trio" ∅)
    (af_body hello [] [("name", VStr "Morty")]) initial_state.
Proof.
  split; [reflexivity |].
  split; [exact trio_known |].
  apply (wrapper_returns_what_awaiting_handler_returns hello (Some "trio")
           None [] [("name", VStr "Morty")] initial_state).
  - reflexivity.
  - exact trio_known.
Defined.

(** ** A failing handler fails the wrapper in the same way *)

(** C2. Under the same two preconditions, when awaiting [F] on a fresh loop
    of the wrapper's backend raises [e], calling the wrapper raises that very
    [e]: the same exception class and the same message. *)
Theorem wrapper_raises_what_handler_raises
    (F : async_function) (backend : option string) (options : option loc)
    (args : list value) (kwargs : list (string * value))
    (w w' : thread_state) (e : exn) :
  current_async_library w = None ->
  default "asyncio" backend ∈ BACKENDS ->
  run_on_fresh_loop
    (EventLoop (default "asyncio" backend)
       (default ∅ (heap w !! default _wrap_default_options options)))
    (af_body F args kwargs) w = (Exc e, w') ->
  exists e',
    call (_wrap F backend options) args kwargs w = (Exc e', w') /\
    exc_type e' = exc_type e /\ exc_msg e' = exc_msg e /\ e' = e.
Proof.
  intros Hidle Hknown Hraises. exists e.
  rewrite call_wrap, sync_func_runs by assumption.
  rewrite Hraises. repeat split.
Qed.

Lemma wrapper_raises_what_handler_raises_witness :
  current_async_library initial_state = None /\
  default "asyncio" None ∈ BACKENDS /\
  exists e',
    call (_wrap boom None None) [] [] initial_state =
      (Exc e', initial_state) /\
    exc_type e' = "ValueError" /\ exc_msg e' = "bad input" /\
    e' = Exn "ValueError" "bad input".
Proof.
  split; [reflexivity |].
  split; [exact asyncio_known |].
  apply (wrapper_raises_what_handler_raises boom None None [] []
           initial_state initial_state (Exn "ValueError" "bad input")).
  - reflexivity.
  - exact asyncio_known.
  - reflexivity.
Defined.

(** ** The wrapper looks like the handler *)

Lemma unwrap_wrap (F : async_function) (backend : option string)
    (options : option loc) :
  unwrap (SyncCallable (_wrap F backend options)) = AsyncCallable F.
Proof. reflexivity. Qed.

Lemma signature_wrap (F : async_function) (backend : option string)
    (options : option loc) :
  signature (SyncCallable (_wrap F backend options)) =
  signature (AsyncCallable F).
Proof. unfold signature. rewrite unwrap_wrap. reflexivity. Qed.

Lemma get_params_wrap (F : async_function) (backend : option string)
    (options : option loc) :
  get_params_from_function (SyncCallable (_wrap F backend options)) =
  get_params_from_function (AsyncCallable F).
Proof.
  unfold get_params_from_function. rewrite signature_wrap. reflexivity.
Qed.

(** C3. The wrapper carries the handler's name, docstring and annotations,
    introspection gives it the handler's signature (parameter names, kinds,
    annotations and defaults), and the dispatcher derives from it, also once
    it is registered through either decorator of the facade, the parameter
    declarations it derives from the handler. *)
Theorem wrapper_presents_handler_metadata
    (F : async_function) (backend : option string) (options : option loc) :
  let G := _wrap F backend options in
  fn_name (sf_attrs G) = fn_name (af_attrs F) /\
  fn_doc (sf_attrs G) = fn_doc (af_attrs F) /\
  fn_annotations (sf_attrs G) = fn_annotations (af_attrs F) /\
  signature (SyncCallable G) = signature (AsyncCallable F) /\
  get_params_from_function (SyncCallable G) =
    get_params_from_function (AsyncCallable F) /\
  (forall name kw self,
     (get_params_from_function ∘ SyncCallable ∘ ci_callback) <$>
       last (registered_commands
               (anyio_command name backend options kw F self).2) =
     Some (get_params_from_function (AsyncCallable F))) /\
  (forall kw self,
     (get_params_from_function ∘ SyncCallable ∘ ti_callback) <$>
       registered_callback (anyio_callback backend options kw F self).2 =
     Some (get_params_from_function (AsyncCallable F))).
Proof.
  intros G. subst G.
  split; [reflexivity |].
  split; [reflexivity |].
  split; [reflexivity |].
  split; [apply signature_wrap |].
  split; [apply get_params_wrap |].
  split.
  - intros name [] self. simpl. rewrite last_snoc. simpl.
    rewrite <- (get_params_wrap F backend options). reflexivity.
  - intros [] self. simpl.
    rewrite <- (get_params_wrap F backend options). reflexivity.
Qed.

(** ** Registration validates nothing; invocation does *)

(** C4. Whatever the backend name and the options dict are, both decorators
    register the wrapper and hand the handler back.  The two failure
    conditions appear when the registered wrapper is called: on a thread that
    already runs a loop the call raises the runtime's RuntimeError, and on an
    idle thread with a backend name the runtime does not know it raises the
    runtime's LookupError, in both cases leaving the state as it was. *)
Theorem registration_succeeds_and_invocation_validates
    (name : option string) (backend : string) (options : loc)
    (ckw : command_kwargs) (bkw : callback_kwargs)
    (F : async_function) (self : Typer) :
  let G := _wrap F (Some backend) (Some options) in
  anyio_command name (Some backend) (Some options) ckw F self =
    (F, MkTyper (typer_init self)
          (registered_commands self ++ [MkCommandInfo name ckw G])
          (registered_callback self)) /\
  anyio_callback (Some backend) (Some options) bkw F self =
    (F, MkTyper (typer_init self) (registered_commands self)
          (Some (MkTyperInfo bkw G))) /\
  (forall args kwargs w lib,
     current_async_library w = Some lib ->
     call G args kwargs w =
     (Exc (RuntimeError ("Already running " ++ lib ++ " in this thread")),
      w)) /\
  (forall args kwargs w,
     current_async_library w = None ->
     backend ∉ BACKENDS ->
     call G args kwargs w =
     (Exc (LookupError ("No such backend: " ++ backend)), w)).
Proof.
  intros G. subst G.
  split; [destruct ckw; reflexivity |].
  split; [destruct bkw; reflexivity |].
  split.
  - intros args kwargs w lib Hbusy. rewrite call_wrap.
    apply sync_func_loop_running. exact Hbusy.
  - intros args kwargs w Hidle Hunknown. rewrite call_wrap.
    apply sync_func_unknown_backend; assumption.
Qed.

Lemma curio_unknown : "curio" ∉ BACKENDS.
Proof.
  intros Hin. apply (bool_decide_pack _) in Hin.
  vm_compute in Hin. exact Hin.
Qed.

Lemma registration_succeeds_and_invocation_validates_witness :
  let G := _wrap hello (Some "curio") (Some 9%positive) in
  let busy := set_current_async_library (Some "trio") initial_state in
  anyio_command None (Some "curio") (Some 9%positive) anyio_command_defaults
    hello (Typer_init (run_app_kwargs None)) =
    (hello, MkTyper (run_app_kwargs None)
              [MkCommandInfo None anyio_command_defaults G] None) /\
  (current_async_library busy = Some "trio" /\
   call G [] [] busy =
   (Exc (RuntimeError "Already running trio in this thread"), busy)) /\
  (current_async_library initial_state = None /\
   ("curio" ∉ BACKENDS) /\
   call G [] [] initial_state =
   (Exc (LookupError "No such backend: curio"), initial_state)).
Proof.
  intros G busy.
  destruct (registration_succeeds_and_invocation_validates None "curio"
              9%positive anyio_command_defaults anyio_callback_defaults
              hello (Typer_init (run_app_kwargs None)))
    as (Hcommand & _ & Hbusy & Hunknown).
  split; [exact Hcommand |].
  split.
  - split; [reflexivity |].
    apply (Hbusy [] [] busy "trio"). reflexivity.
  - split; [reflexivity |].
    split; [exact curio_unknown |].
    apply (Hunknown [] [] initial_state); [reflexivity | exact curio_unknown].
Defined.

(** The scenario of the spec: a handler that calls a wrapper while its own
    loop is running gets the RuntimeError, whichever backends are involved. *)
Example nested_invocation_raises :
  fst (call (_wrap (nested (_wrap hello (Some "trio") None)) None None) [] []
         initial_state) =
  Exc (RuntimeError "Already running asyncio in this thread").
Proof. reflexivity. Qed.

(** ** What the closure of the wrapper holds *)

(** C5, refuted as stated.  A wrapper is registered with the dict at address
    10, which is empty; invoked then, its handler finds a loop without
    [use_uvloop].  After [options["use_uvloop"] = True] on that same dict,
    the same wrapper's handler finds a loop with [use_uvloop] set. *)
Lemma options_mutation_after_registration_changes_behavior :
  let options := 10%positive in
  let w := with_dict options initial_state in
  let G := _wrap uses_uvloop (Some "asyncio") (Some options) in
  let w' := dict_setitem options "use_uvloop" (VBool true) w in
  (call G [] [] w).1 = Ok (VBool false) /\
  (call G [] [] w').1 = Ok (VBool true) /\
  (call G [] [] w).1 <> (call G [] [] w').1.
Proof.
  intros options w G w'.
  assert (Hbefore : (call G [] [] w).1 = Ok (VBool false))
    by (vm_compute; reflexivity).
  assert (Hafter : (call G [] [] w').1 = Ok (VBool true))
    by (vm_compute; reflexivity).
  split; [exact Hbefore |]. split; [exact Hafter |].
  rewrite Hbefore, Hafter. discriminate.
Qed.

(** C5, amended.  The closure of the wrapper holds the handler, the backend
    name and the address of the options dict given at registration, and
    nothing rebinds them: every invocation passes exactly that name and that
    same dict object to the runtime's blocking run.  The dict is not copied,
    so the loop is configured by the content the dict has when the wrapper
    is invoked. *)
Theorem closure_fixes_backend_and_options_object
    (F : async_function) (backend : string) (options : loc) :
  let G := _wrap F (Some backend) (Some options) in
  cell_func G = F /\
  cell_backend G = backend /\
  cell_options G = options /\
  (forall args kwargs w,
     call G args kwargs w =
     anyio_run (_main F) [VTuple args; VDict kwargs] backend options w) /\
  (forall args kwargs w,
     current_async_library w = None ->
     backend ∈ BACKENDS ->
     call G args kwargs w =
     run_on_fresh_loop
       (EventLoop backend (default ∅ (heap w !! options)))
       (af_body F args kwargs) w).
Proof.
  intros G. subst G.
  split; [reflexivity |].
  split; [reflexivity |].
  split; [reflexivity |].
  split; [reflexivity |].
  intros args kwargs w Hidle Hknown. rewrite call_wrap.
  apply sync_func_runs; assumption.
Qed.

Lemma closure_fixes_backend_and_options_object_witness :
  let options := 10%positive in
  let w := dict_setitem options "use_uvloop" (VBool true) initial_state in
  let G := _wrap uses_uvloop (Some "asyncio") (Some options) in
  cell_backend G = "asyncio" /\
  cell_options G = options /\
  current_async_library w = None /\
  "asyncio" ∈ BACKENDS /\
  call G [] [] w =
  run_on_fresh_loop
    (EventLoop "asyncio" (default ∅ (heap w !! options)))
    (af_body uses_uvloop [] []) w.
Proof.
  intros options w G.
  destruct (closure_fixes_backend_and_options_object uses_uvloop "asyncio"
              options) as (_ & Hbackend & Hoptions & _ & Hruns).
  split; [exact Hbackend |].
  split; [exact Hoptions |].
  split; [reflexivity |].
  split; [exact asyncio_known |].
  apply (Hruns [] [] w); [reflexivity | exact asyncio_known].
Defined.

(** ** The decorators hand the handler back *)

(** C6. Whatever the name, backend, options and native configuration, the
    decorator made by [anyio_command] and the one made by [anyio_callback]
    return the handler they were applied to, the very function that went
    in, and the registration happens beside it, in the application: the
    command decorator leaves the application with the handler's wrapper
    added as one more command, the callback decorator leaves it with the
    handler's wrapper as its callback. *)
Theorem decorators_return_original_handler
    (name : option string) (backend : option string) (options : option loc)
    (ckw : command_kwargs) (bkw : callback_kwargs)
    (F : async_function) (self : Typer) :
  let Gcommand :=
    _wrap F (Some (default "asyncio" backend))
      (Some (default anyio_command_default_options options)) in
  let Gcallback :=
    _wrap F (Some (default "asyncio" backend))
      (Some (default anyio_callback_default_options options)) in
  anyio_command name backend options ckw F self =
    (F, MkTyper (typer_init self)
          (registered_commands self ++ [MkCommandInfo name ckw Gcommand])
          (registered_callback self)) /\
  anyio_callback backend options bkw F self =
    (F, MkTyper (typer_init self) (registered_commands self)
          (Some (MkTyperInfo bkw Gcallback))) /\
  cell_func Gcommand = F /\
  cell_func Gcallback = F.
Proof. destruct ckw, bkw. repeat split. Qed.

(** ** The facade forwards the native configuration *)





(** A call that gives only a help text leaves every other native parameter
    at the default of the facade's signature, which the dispatcher receives
    as such. *)
Example anyio_command_help_only :
  let kw :=
    CommandKwargs None None (Some "Greets.") None None "[OPTIONS]" true
      false false false (Default None) in
  last (registered_commands
          (snd (anyio_command None None None kw hello
                  (Typer_init (run_app_kwargs None))))) =
  Some (MkCommandInfo None kw
          (_wrap hello (Some "asyncio")
             (Some anyio_command_default_options))).
Proof. reflexivity. Qed.

(** ** The single-command entry point *)

(** C8. [run] builds the application with completion switched off and every
    other constructor parameter at its default, registers the wrapper of
    [function], made with the given backend and options, as its only command
    under no explicit name and with the default command configuration, and
    hands that application to the dispatcher once.  Whatever the dispatcher
    returns is dropped: [run] returns None; an exception of the dispatcher
    passes through. *)
Theorem run_registers_dispatches_and_returns_None
    (DEFAULT_MARKUP_MODE : option string) (Typer_call : Typer -> M value)
    (function : async_function) (backend : option string)
    (options : option loc) (w : thread_state) :
  let G :=
    _wrap function (Some (default "asyncio" backend))
      (Some (default run_default_options options)) in
  let app :=
    MkTyper (run_app_kwargs DEFAULT_MARKUP_MODE)
      [MkCommandInfo None anyio_command_defaults G] None in
  ty_add_completion (typer_init app) = false /\
  run_app_kwargs DEFAULT_MARKUP_MODE =
    TyperKwargs (Default None) (Default None) (Default false)
      (Default false) (Default None) (Default false) (Default None)
      (Default None) (Default None) (Default None) (Default None)
      (Default None) (Default "[OPTIONS]") (Default true) (Default false)
      (Default false) false DEFAULT_MARKUP_MODE (Default None) true true
      true true /\
  run DEFAULT_MARKUP_MODE Typer_call function backend options w =
    match Typer_call app w with
    | (Ok _, w') => (Ok VNone, w')
    | (Exc e, w') => (Exc e, w')
    end.
Proof.
  intros G app.
  split; [reflexivity |].
  split; [reflexivity |].
  assert (Hregistered :
    anyio_command None (Some (default "asyncio" backend))
      (Some (default run_default_options options)) anyio_command_defaults
      function (AnyioTyper (run_app_kwargs DEFAULT_MARKUP_MODE)) =
    (function, app)) by reflexivity.
  unfold run. cbv zeta. rewrite Hregistered. unfold bind, ret.
  destruct (Typer_call app w) as [[v | e] w']; reflexivity.
Qed.

(** The handler of the test suite run as a whole program, the command line
    parsed to no arguments. *)
Example run_hello :
  run None (invoke_sole_command [] []) hello (Some "trio") None
    initial_state =
  (Ok VNone, write_stdout "Hello Rick!" initial_state).
Proof. reflexivity. Qed.

(** With a dispatcher that exits the process after the handler, [run] does
    not return: the exit passes through it. *)
Example run_with_exiting_dispatcher :
  fst (run None
         (fun app => let* _ := invoke_sole_command [] [] app in
                     raise (Exn "SystemExit" "0"))
         hello None None initial_state) =
  Exc (Exn "SystemExit" "0").
Proof. reflexivity. Qed.

(** ** The backend is only a value passed along *)

(** A coroutine that never looks at its loop is driven to the same outcome
    by any loop, and the thread's record of the running library only rides
    along. *)
Lemma drive_loop_independent (c : coro) :
  loop_independent c ->
  forall l1 l2 lib w,
    drive l1 c (set_current_async_library lib w) =
    let '(r, w') := drive l2 c w in (r, set_current_async_library lib w').
Proof.
  induction c as [v | e | line k IH | k IH | k IH | g k IH];
    simpl; intros Hc l1 l2 lib w.
  - reflexivity.
  - reflexivity.
  - change (write_stdout line (set_current_async_library lib w))
      with (set_current_async_library lib (write_stdout line w)).
    apply IH. exact Hc.
  - apply IH. exact Hc.
  - destruct Hc.
  - destruct Hc as [Hg Hk]. rewrite Hg.
    destruct (g w) as [r w']. apply IH. apply Hk.
Qed.

Lemma loop_independent_agnostic (F : async_function) :
  (forall args kwargs, loop_independent (af_body F args kwargs)) ->
  backend_agnostic F.
Proof.
  intros Hind args kwargs b1 b2 opts w. unfold run_on_fresh_loop.
  rewrite (drive_loop_independent _ (Hind args kwargs)
             (EventLoop b1 opts) (EventLoop b1 opts) _ w).
  rewrite (drive_loop_independent _ (Hind args kwargs)
             (EventLoop b2 opts) (EventLoop b1 opts) _ w).
  destruct (drive (EventLoop b1 opts) (af_body F args kwargs) w) as [r w'].
  reflexivity.
Qed.

Lemma greet_loop_independent (name : value) : loop_independent (greet name).
Proof.
  destruct name as [| | | s | | |]; try exact I.
  unfold greet. destruct (bool_decide (s ∈ User_values)); exact I.
Qed.

Lemma hello_loop_independent (args : list value)
    (kwargs : list (string * value)) :
  loop_independent (af_body hello args kwargs).
Proof.
  cbn [hello af_body].
  destruct (forallb _ kwargs); [| exact I].
  destruct args as [| name1 [|]];
    destruct (lookup_assoc "name" kwargs) as [name2 |];
    try exact I; apply greet_loop_independent.
Qed.

Lemma hello_backend_agnostic : backend_agnostic hello.
Proof. apply loop_independent_agnostic. apply hello_loop_independent. Qed.

(** The test's handler refuses a keyword it does not have and a name that
    is no member of [User]. *)
Example hello_refuses_bad_arguments :
  fst (call (_wrap hello None None) [] [("age", VInt 3)] initial_state) =
    Exc (TypeError "hello() got an unexpected keyword argument") /\
  fst (call (_wrap hello None None) [] [("name", VStr "bob")] initial_state) =
    Exc (Exn "AttributeError" "'str' object has no attribute 'value'").
Proof. split; vm_compute; reflexivity. Qed.

(** A handler that tells which library runs it is not backend-agnostic, and
    its wrappers for two backends do differ. *)
Example which_library_depends_on_backend :
  ~ backend_agnostic which_library /\
  fst (call (_wrap which_library (Some "asyncio") None) [] [] initial_state)
    = Ok (VStr "asyncio") /\
  fst (call (_wrap which_library (Some "trio") None) [] [] initial_state)
    = Ok (VStr "trio").
Proof.
  split; [| split; reflexivity].
  intros Hagnostic.
  specialize (Hagnostic [] [] "asyncio" "trio" ∅ initial_state).
  vm_compute in Hagnostic. discriminate.
Qed.

Lemma loop_independent_loop_agnostic (F : async_function) :
  (forall args kwargs, loop_independent (af_body F args kwargs)) ->
  loop_agnostic F.
Proof.
  intros Hind args kwargs loop1 loop2 w. unfold run_on_fresh_loop.
  rewrite (drive_loop_independent _ (Hind args kwargs) loop1 loop1 _ w).
  rewrite (drive_loop_independent _ (Hind args kwargs) loop2 loop1 _ w).
  destruct (drive loop1 (af_body F args kwargs) w) as [r w'].
  reflexivity.
Qed.

Lemma hello_loop_agnostic : loop_agnostic hello.
Proof.
  apply loop_independent_loop_agnostic. apply hello_loop_independent.
Qed.

(** Over backends that take their options as they are, the general runtime
    is [anyio_run]. *)
Lemma call_with_options_as_given (g : sync_function) :
  call_with options_as_given g = call g.
Proof. reflexivity. Qed.

Lemma sync_func_with_runs
    (configure : string -> gmap string value -> result (gmap string value))
    (func : async_function) (backend : string) (options : loc)
    (args : list value) (kwargs : list (string * value))
    (w : thread_state) (config : gmap string value) :
  current_async_library w = None ->
  backend ∈ BACKENDS ->
  configure backend (default ∅ (heap w !! options)) = Ok config ->
  sync_func_with configure func backend options args kwargs w =
  run_on_fresh_loop (EventLoop backend config) (af_body func args kwargs) w.
Proof.
  intros Hidle Hknown Haccepted. unfold sync_func_with, anyio_run_with.
  rewrite Hidle, (get_async_backend_known _ Hknown), Haccepted.
  unfold run_on_fresh_loop. rewrite drive_main. reflexivity.
Qed.

(** With backends that interpret their options, a handler that does look at
    its loop can tell two backends apart even on the same options dict. *)
Example uses_uvloop_tells_backends_apart :
  let w :=
    dict_setitem 10%positive "use_uvloop" (VBool true) initial_state in
  fst (call_with trio_ignores_options
         (_wrap uses_uvloop (Some "asyncio") (Some 10%positive)) [] [] w) =
    Ok (VBool true) /\
  fst (call_with trio_ignores_options
         (_wrap uses_uvloop (Some "trio") (Some 10%positive)) [] [] w) =
    Ok (VBool false).
Proof. split; vm_compute; reflexivity. Qed.

(** The acceptance of the options is needed: with a trio backend that
    refuses options, the same handler and the same options dict end
    differently on the two backends. *)
Example refused_options_tell_backends_apart :
  let w :=
    dict_setitem 10%positive "use_uvloop" (VBool true) initial_state in
  fst (call_with trio_refuses_options
         (_wrap hello (Some "asyncio") (Some 10%positive)) [] [] w) =
    Ok VNone /\
  fst (call_with trio_refuses_options
         (_wrap hello (Some "trio") (Some 10%positive)) [] [] w) =
    Exc (TypeError "run() got an unexpected keyword argument").
Proof. split; vm_compute; reflexivity. Qed.

(** C9. Whatever the backends make of their options, for a handler that
    does not depend on the loop that drives it, two wrappers that differ in
    the backend name given at registration, and possibly in the options
    dict that goes with it, give the same outcome and the same final state
    when called with the same arguments on an idle thread, provided both
    names are known to the runtime and each backend accepts the options it
    is given.  This holds in particular over the runtime of this file,
    whose backends take every options dict as it is. *)
Theorem backend_choice_does_not_change_outcome
    (configure : string -> gmap string value -> result (gmap string value))
    (F : async_function) (b1 b2 : string) (options1 options2 : loc)
    (args : list value) (kwargs : list (string * value)) (w : thread_state)
    (config1 config2 : gmap string value) :
  loop_agnostic F ->
  b1 ∈ BACKENDS ->
  b2 ∈ BACKENDS ->
  current_async_library w = None ->
  configure b1 (default ∅ (heap w !! options1)) = Ok config1 ->
  configure b2 (default ∅ (heap w !! options2)) = Ok config2 ->
  call_with configure (_wrap F (Some b1) (Some options1)) args kwargs w =
  call_with configure (_wrap F (Some b2) (Some options2)) args kwargs w /\
  call (_wrap F (Some b1) (Some options1)) args kwargs w =
  call (_wrap F (Some b2) (Some options2)) args kwargs w.
Proof.
  intros Hagnostic Hb1 Hb2 Hidle Haccepted1 Haccepted2. split.
  - unfold call_with. cbn [_wrap wraps cell_func cell_backend cell_options
      default]. unfold id.
    rewrite (sync_func_with_runs configure F b1 options1 args kwargs w
               config1 Hidle Hb1 Haccepted1).
    rewrite (sync_func_with_runs configure F b2 options2 args kwargs w
               config2 Hidle Hb2 Haccepted2).
    apply Hagnostic.
  - rewrite !call_wrap. simpl.
    rewrite !sync_func_runs by assumption.
    apply Hagnostic.
Qed.

Lemma backend_choice_does_not_change_outcome_witness :
  let w :=
    dict_setitem 10%positive "use_uvloop" (VBool true) initial_state in
  loop_agnostic hello /\
  "asyncio" ∈ BACKENDS /\
  "trio" ∈ BACKENDS /\
  current_async_library w = None /\
  trio_ignores_options "asyncio" (default ∅ (heap w !! 10%positive)) =
    Ok {["use_uvloop" := VBool true]} /\
  trio_ignores_options "trio"
    (default ∅ (heap w !! anyio_command_default_options)) = Ok ∅ /\
  call_with trio_ignores_options
    (_wrap hello (Some "asyncio") (Some 10%positive)) []
    [("name", VStr "Morty")] w =
  call_with trio_ignores_options
    (_wrap hello (Some "trio") (Some anyio_command_default_options)) []
    [("name", VStr "Morty")] w.
Proof.
  intros w.
  split; [exact hello_loop_agnostic |].
  split; [exact asyncio_known |].
  split; [exact trio_known |].
  split; [reflexivity |].
  split; [vm_compute; reflexivity |].
  split; [vm_compute; reflexivity |].
  apply (backend_choice_does_not_change_outcome trio_ignores_options hello
           "asyncio" "trio" 10%positive anyio_command_default_options []
           [("name", VStr "Morty")] w {["use_uvloop" := VBool true]} ∅).
  - exact hello_loop_agnostic.
  - exact asyncio_known.
  - exact trio_known.
  - reflexivity.
  - vm_compute; reflexivity.
  - vm_compute; reflexivity.
Defined.

(** ** The default options dicts *)

Lemma heap_dict_setitem (l : loc) (key : string) (v : value)
    (w : thread_state) :
  heap (dict_setitem l key v w) !! l =
  Some (<[key := v]> (default ∅ (heap w !! l))).
Proof. unfold dict_setitem, set_heap. simpl. apply lookup_insert_eq. Qed.

(** C10, refuted as stated.  One application registers a command and a
    callback, both leaving [options] out.  The two wrappers hold different
    dict objects: after [use_uvloop] is set in the default dict of
    [anyio_command], the command's handler runs on a loop with [use_uvloop]
    and the callback's handler on a loop without it. *)
Lemma default_options_differ_between_entry_points :
  let app0 := Typer_init (run_app_kwargs None) in
  let app1 :=
    snd (anyio_command None None None anyio_command_defaults uses_uvloop
           app0) in
  let app2 :=
    snd (anyio_callback None None anyio_callback_defaults uses_uvloop app1) in
  let w :=
    dict_setitem anyio_command_default_options "use_uvloop" (VBool true)
      initial_state in
  exists Gcommand Gcallback,
    ci_callback <$> last (registered_commands app2) = Some Gcommand /\
    ti_callback <$> registered_callback app2 = Some Gcallback /\
    cell_options Gcommand <> cell_options Gcallback /\
    fst (call Gcommand [] [] w) = Ok (VBool true) /\
    fst (call Gcallback [] [] w) = Ok (VBool false).
Proof.
  intros app0 app1 app2 w.
  exists (_wrap uses_uvloop (Some "asyncio")
            (Some anyio_command_default_options)).
  exists (_wrap uses_uvloop (Some "asyncio")
            (Some anyio_callback_default_options)).
  split; [reflexivity |].
  split; [reflexivity |].
  split; [discriminate |].
  split; vm_compute; reflexivity.
Qed.

(** C10, amended.  Each of [_wrap], [anyio_command], [anyio_callback] and
    [run] has a default dict of its own: the four are different objects,
    each empty when the module is loaded, and a call that leaves [options] out
    makes the wrapper hold the default dict of the function that was called,
    so registrations that go through the same entry point share one dict.
    The wrapper passes the dict it holds to the runtime's blocking run by
    reference at every invocation and never copies it: an invocation after
    [options[key] = v] runs the handler on a loop configured with that
    item. *)
Theorem options_default_per_entry_point_and_by_reference
    (DEFAULT_MARKUP_MODE : option string) (Typer_call : Typer -> M value)
    (F : async_function) (name backend : option string)
    (ckw : command_kwargs) (bkw : callback_kwargs) (self : Typer) :
  NoDup [_wrap_default_options; anyio_callback_default_options;
         anyio_command_default_options; run_default_options] /\
  module_heap !! _wrap_default_options = Some ∅ /\
  module_heap !! anyio_callback_default_options = Some ∅ /\
  module_heap !! anyio_command_default_options = Some ∅ /\
  module_heap !! run_default_options = Some ∅ /\
  cell_options (_wrap F backend None) = _wrap_default_options /\
  (cell_options ∘ ci_callback) <$>
    last (registered_commands
            (snd (anyio_command name backend None ckw F self))) =
    Some anyio_command_default_options /\
  (cell_options ∘ ti_callback) <$>
    registered_callback (snd (anyio_callback backend None bkw F self)) =
    Some anyio_callback_default_options /\
  (forall w,
     run DEFAULT_MARKUP_MODE Typer_call F backend None w =
     (let* _ :=
        Typer_call
          (MkTyper (run_app_kwargs DEFAULT_MARKUP_MODE)
             [MkCommandInfo None anyio_command_defaults
                (_wrap F (Some (default "asyncio" backend))
                   (Some run_default_options))] None) in
      ret VNone) w) /\
  (forall (b : string) (options : loc) args kwargs w,
     call (_wrap F (Some b) (Some options)) args kwargs w =
     anyio_run (_main F) [VTuple args; VDict kwargs] b options w) /\
  (forall (b : string) (options : loc) key v args kwargs w,
     current_async_library w = None ->
     b ∈ BACKENDS ->
     call (_wrap F (Some b) (Some options)) args kwargs
       (dict_setitem options key v w) =
     run_on_fresh_loop
       (EventLoop b (<[key := v]> (default ∅ (heap w !! options))))
       (af_body F args kwargs) (dict_setitem options key v w)).
Proof.
  split; [apply (bool_decide_unpack _); vm_compute; exact I |].
  split; [reflexivity |].
  split; [reflexivity |].
  split; [reflexivity |].
  split; [reflexivity |].
  split; [reflexivity |].
  split; [destruct ckw; simpl; rewrite last_snoc; reflexivity |].
  split; [destruct bkw; reflexivity |].
  split; [intros w; reflexivity |].
  split; [intros; reflexivity |].
  intros b options key v args kwargs w Hidle Hknown.
  rewrite call_wrap. simpl.
  rewrite sync_func_runs by assumption.
  rewrite heap_dict_setitem. reflexivity.
Qed.

Lemma options_default_per_entry_point_and_by_reference_witness :
  let options := 10%positive in
  let w := with_dict options initial_state in
  current_async_library w = None /\
  "asyncio" ∈ BACKENDS /\
  call (_wrap uses_uvloop (Some "asyncio") (Some options)) [] []
    (dict_setitem options "use_uvloop" (VBool true) w) =
  run_on_fresh_loop
    (EventLoop "asyncio"
       (<["use_uvloop" := VBool true]> (default ∅ (heap w !! options))))
    (af_body uses_uvloop [] [])
    (dict_setitem options "use_uvloop" (VBool true) w).
Proof.
  intros options w.
  destruct (options_default_per_entry_point_and_by_reference None
              (invoke_sole_command [] []) uses_uvloop None None
              anyio_command_defaults anyio_callback_defaults
              (Typer_init (run_app_kwargs None)))
    as (_ & _ & _ & _ & _ & _ & _ & _ & _ & _ & Hobserved).
  split; [reflexivity |].
  split; [exact asyncio_known |].
  apply (Hobserved "asyncio" options "use_uvloop" (VBool true) [] [] w);
    [reflexivity | exact asyncio_known].
Defined.

(** * Further properties of the bridge *)

(** ** How an invocation can end *)

(** An invocation either is refused, with the state untouched, or runs the
    handler on a fresh loop. *)
Lemma sync_func_cases (func : async_function) (backend : string)
    (options : loc) (args : list value) (kwargs : list (string * value))
    (w : thread_state) :
  (exists e, sync_func func backend options args kwargs w = (Exc e, w)) \/
  (current_async_library w = None /\
   sync_func func backend options args kwargs w =
   run_on_fresh_loop (EventLoop backend (default ∅ (heap w !! options)))
     (af_body func args kwargs) w).
Proof.
  destruct (current_async_library w) as [lib |] eqn:Hlib.
  - left. eexists. apply sync_func_loop_running. exact Hlib.
  - destruct (decide (backend ∈ BACKENDS)) as [Hknown | Hunknown].
    + right. split; [reflexivity |]. apply sync_func_runs; assumption.
    + left. eexists. apply sync_func_unknown_backend; assumption.
Qed.

Lemma run_on_fresh_loop_idle (loop : event_loop) (c : coro)
    (w : thread_state) :
  current_async_library (snd (run_on_fresh_loop loop c w)) = None.
Proof.
  unfold run_on_fresh_loop.
  destruct (drive loop c _) as [r w']. reflexivity.
Qed.

(** X1. Whatever wrapper is called, with whatever arguments and however the
    call ends, the thread's record of the running library is afterwards what
    it was before: an idle thread is idle again. *)
Theorem invocation_restores_running_library
    (g : sync_function) (args : list value) (kwargs : list (string * value))
    (w : thread_state) :
  current_async_library (snd (call g args kwargs w)) =
  current_async_library w.
Proof.
  unfold call.
  destruct (sync_func_cases (cell_func g) (cell_backend g) (cell_options g)
              args kwargs w) as [[e Hrefused] | [Hidle Hruns]].
  - rewrite Hrefused. reflexivity.
  - rewrite Hruns, Hidle. apply run_on_fresh_loop_idle.
Qed.

(** X2. After any invocation of any wrapper on an idle thread, successful
    or not, a wrapper with a known backend can be invoked: it runs its
    handler on a fresh loop, configured by its options dict as the earlier
    invocation left it. *)
Theorem wrapper_runs_after_an_earlier_invocation
    (g : sync_function) (F : async_function) (b : string) (options : loc)
    (args1 args2 : list value) (kwargs1 kwargs2 : list (string * value))
    (w : thread_state) :
  current_async_library w = None ->
  b ∈ BACKENDS ->
  call (_wrap F (Some b) (Some options)) args2 kwargs2
    (snd (call g args1 kwargs1 w)) =
  run_on_fresh_loop
    (EventLoop b
       (default ∅ (heap (snd (call g args1 kwargs1 w)) !! options)))
    (af_body F args2 kwargs2) (snd (call g args1 kwargs1 w)).
Proof.
  intros Hidle Hknown. rewrite call_wrap. simpl.
  apply sync_func_runs; [| exact Hknown].
  unfold call.
  destruct (sync_func_cases (cell_func g) (cell_backend g) (cell_options g)
              args1 kwargs1 w) as [[e Hrefused] | [_ Hruns]].
  - rewrite Hrefused. exact Hidle.
  - rewrite Hruns. apply run_on_fresh_loop_idle.
Qed.

Lemma wrapper_runs_after_an_earlier_invocation_witness :
  current_async_library initial_state = None /\
  "trio" ∈ BACKENDS /\
  call (_wrap hello (Some "trio") (Some 3%positive)) [VStr "Morty"] []
    (snd (call (_wrap boom None None) [] [] initial_state)) =
  (Ok VNone, write_stdout "Hello Morty!" initial_state).
Proof.
  split; [reflexivity |].
  split; [exact trio_known |].
  etransitivity.
  - apply (wrapper_runs_after_an_earlier_invocation (_wrap boom None None)
             hello "trio" 3%positive [] [VStr "Morty"] [] [] initial_state);
      [reflexivity | exact trio_known].
  - reflexivity.
Defined.

(** X3. A handler that calls a wrapper while its own loop is running has
    that call refused: the outer wrapper, on an idle thread and with a known
    backend, ends with the RuntimeError that names its own backend, and the
    inner handler has not run. *)
Theorem nested_invocation_is_refused
    (g : sync_function) (b : string) (options : option loc)
    (args : list value) (kwargs : list (string * value))
    (w : thread_state) :
  current_async_library w = None ->
  b ∈ BACKENDS ->
  call (_wrap (nested g) (Some b) options) args kwargs w =
  (Exc (RuntimeError ("Already running " ++ b ++ " in this thread")), w).
Proof.
  intros Hidle Hknown. rewrite call_wrap.
  cbn [default]. rewrite sync_func_runs by assumption.
  unfold run_on_fresh_loop.
  cbn [nested af_body drive loop_backend]. unfold call, id.
  rewrite (sync_func_loop_running (cell_func g) (cell_backend g)
             (cell_options g) args kwargs
             (set_current_async_library (Some b) w) b) by reflexivity.
  cbn [drive]. destruct w as [h lib out]. simpl in Hidle. subst lib.
  reflexivity.
Qed.

Lemma nested_invocation_is_refused_witness :
  current_async_library initial_state = None /\
  "trio" ∈ BACKENDS /\
  call (_wrap (nested (_wrap hello None None)) (Some "trio") None) [] []
    initial_state =
  (Exc (RuntimeError "Already running trio in this thread"), initial_state).
Proof.
  split; [reflexivity |].
  split; [exact trio_known |].
  apply (nested_invocation_is_refused (_wrap hello None None) "trio" None
           [] [] initial_state); [reflexivity | exact trio_known].
Defined.

(** ** What the bridge itself touches *)

Lemma drive_no_sync_heap (c : coro) :
  no_sync c ->
  forall loop w, heap (snd (drive loop c w)) = heap w.
Proof.
  induction c as [v | e | line k IH | k IH | k IH | g k IH];
    simpl; intros Hc loop w.
  - reflexivity.
  - reflexivity.
  - rewrite (IH Hc). reflexivity.
  - apply IH. exact Hc.
  - apply IH. apply Hc.
  - destruct Hc.
Qed.

Lemma drive_no_sync_stdout (c : coro) :
  no_sync c ->
  forall loop w, exists out, stdout (snd (drive loop c w)) = stdout w ++ out.
Proof.
  induction c as [v | e | line k IH | k IH | k IH | g k IH];
    simpl; intros Hc loop w.
  - exists []. symmetry. apply app_nil_r.
  - exists []. symmetry. apply app_nil_r.
  - destruct (IH Hc loop (write_stdout line w)) as [out Hout].
    exists (line :: out). rewrite Hout. simpl.
    rewrite <- app_assoc. reflexivity.
  - apply IH. exact Hc.
  - apply IH. apply Hc.
  - destruct Hc.
Qed.

Lemma drive_no_sync_result (c : coro) :
  no_sync c ->
  forall loop w1 w2, fst (drive loop c w1) = fst (drive loop c w2).
Proof.
  induction c as [v | e | line k IH | k IH | k IH | g k IH];
    simpl; intros Hc loop w1 w2.
  - reflexivity.
  - reflexivity.
  - apply IH. exact Hc.
  - apply IH. exact Hc.
  - apply IH. apply Hc.
  - destruct Hc.
Qed.

(** X4. When the handler's coroutine runs no synchronous code, an
    invocation of its wrapper writes to no dict object, the options dict
    included, and only adds to what has been printed. *)
Theorem bridge_writes_no_dict
    (F : async_function) (backend : option string) (options : option loc)
    (args : list value) (kwargs : list (string * value))
    (w : thread_state) :
  no_sync (af_body F args kwargs) ->
  heap (snd (call (_wrap F backend options) args kwargs w)) = heap w /\
  exists out,
    stdout (snd (call (_wrap F backend options) args kwargs w)) =
    stdout w ++ out.
Proof.
  intros Hpure. rewrite call_wrap.
  destruct (sync_func_cases F (default "asyncio" backend)
              (default _wrap_default_options options) args kwargs w)
    as [[e Hrefused] | [_ Hruns]].
  - rewrite Hrefused. simpl. split; [reflexivity |].
    exists []. symmetry. apply app_nil_r.
  - rewrite Hruns. unfold run_on_fresh_loop.
    set (loop := EventLoop _ _).
    set (w0 := set_current_async_library _ w).
    pose proof (drive_no_sync_heap _ Hpure loop w0) as Hheap.
    destruct (drive_no_sync_stdout _ Hpure loop w0) as [out Hout].
    destruct (drive loop (af_body F args kwargs) w0) as [r w'].
    simpl in *. split; [exact Hheap |]. exists out. exact Hout.
Qed.

Lemma greet_no_sync (name : value) : no_sync (greet name).
Proof.
  destruct name as [| | | s | | |]; try exact I.
  unfold greet. destruct (bool_decide (s ∈ User_values)); exact I.
Qed.

Lemma hello_no_sync (args : list value) (kwargs : list (string * value)) :
  no_sync (af_body hello args kwargs).
Proof.
  cbn [hello af_body].
  destruct (forallb _ kwargs); [| exact I].
  destruct args as [| name1 [|]];
    destruct (lookup_assoc "name" kwargs) as [name2 |];
    try exact I; apply greet_no_sync.
Qed.

Lemma bridge_writes_no_dict_witness :
  no_sync (af_body hello [] []) /\
  heap (snd (call (_wrap hello None None) [] [] initial_state)) =
    module_heap /\
  exists out,
    stdout (snd (call (_wrap hello None None) [] [] initial_state)) =
    [] ++ out.
Proof.
  split; [exact (hello_no_sync [] []) |].
  apply (bridge_writes_no_dict hello None None [] [] initial_state).
  exact (hello_no_sync [] []).
Defined.

Lemma heap_dict_setitem_other (l l' : loc) (key : string) (v : value)
    (w : thread_state) :
  l <> l' -> heap (dict_setitem l key v w) !! l' = heap w !! l'.
Proof.
  intros Hne. unfold dict_setitem, set_heap. simpl.
  apply lookup_insert_ne. exact Hne.
Qed.

(** X5. When the handler's coroutine runs no synchronous code, writing an
    item into any dict other than the one the wrapper holds does not change
    what an invocation of the wrapper returns or raises. *)
Theorem other_dicts_do_not_reach_the_wrapper
    (F : async_function) (b : string) (options l : loc) (key : string)
    (v : value) (args : list value) (kwargs : list (string * value))
    (w : thread_state) :
  no_sync (af_body F args kwargs) ->
  l <> options ->
  fst (call (_wrap F (Some b) (Some options)) args kwargs
         (dict_setitem l key v w)) =
  fst (call (_wrap F (Some b) (Some options)) args kwargs w).
Proof.
  intros Hpure Hne. rewrite call_wrap. simpl.
  destruct (current_async_library w) as [lib |] eqn:Hlib.
  - rewrite (sync_func_loop_running F b options args kwargs w lib Hlib).
    rewrite (sync_func_loop_running F b options args kwargs
               (dict_setitem l key v w) lib) by exact Hlib.
    reflexivity.
  - destruct (decide (b ∈ BACKENDS)) as [Hknown | Hunknown].
    + rewrite (sync_func_runs F b options args kwargs w Hlib Hknown).
      rewrite (sync_func_runs F b options args kwargs
                 (dict_setitem l key v w)) by assumption.
      rewrite (heap_dict_setitem_other l options key v w Hne).
      unfold run_on_fresh_loop.
      set (loop := EventLoop _ _).
      pose proof (drive_no_sync_result _ Hpure loop
                    (set_current_async_library (Some (loop_backend loop))
                       (dict_setitem l key v w))
                    (set_current_async_library (Some (loop_backend loop)) w))
        as Hsame.
      destruct (drive loop (af_body F args kwargs)
                  (set_current_async_library (Some (loop_backend loop))
                     (dict_setitem l key v w))) as [r1 w1].
      destruct (drive loop (af_body F args kwargs)
                  (set_current_async_library (Some (loop_backend loop)) w))
        as [r2 w2].
      exact Hsame.
    + rewrite (sync_func_unknown_backend F b options args kwargs w Hlib
                 Hunknown).
      rewrite (sync_func_unknown_backend F b options args kwargs
                 (dict_setitem l key v w)) by assumption.
      reflexivity.
Qed.

Lemma uses_uvloop_no_sync (args : list value)
    (kwargs : list (string * value)) :
  no_sync (af_body uses_uvloop args kwargs).
Proof. simpl. intros loop. exact I. Qed.

Lemma other_dicts_do_not_reach_the_wrapper_witness :
  no_sync (af_body uses_uvloop [] []) /\
  anyio_command_default_options <> anyio_callback_default_options /\
  fst (call (_wrap uses_uvloop (Some "asyncio")
               (Some anyio_callback_default_options)) [] []
         (dict_setitem anyio_command_default_options "use_uvloop"
            (VBool true) initial_state)) =
  Ok (VBool false).
Proof.
  split; [exact (uses_uvloop_no_sync [] []) |].
  split; [discriminate |].
  rewrite (other_dicts_do_not_reach_the_wrapper uses_uvloop "asyncio"
             anyio_callback_default_options anyio_command_default_options
             "use_uvloop" (VBool true) [] [] initial_state);
    [reflexivity | exact (uses_uvloop_no_sync [] []) | discriminate].
Defined.

(** X6. Two wrappers of one handler with one backend behave alike, in
    outcome and in final state, whenever the dicts they hold have the same
    content at the invocation: which dict object holds the options does not
    matter, only what is in it. *)
Theorem only_the_content_of_options_matters
    (F : async_function) (backend : option string) (l1 l2 : loc)
    (args : list value) (kwargs : list (string * value))
    (w : thread_state) :
  default ∅ (heap w !! l1) = default ∅ (heap w !! l2) ->
  call (_wrap F backend (Some l1)) args kwargs w =
  call (_wrap F backend (Some l2)) args kwargs w.
Proof.
  intros Hsame. rewrite !call_wrap. simpl.
  unfold sync_func, anyio_run. rewrite Hsame. reflexivity.
Qed.

Lemma only_the_content_of_options_matters_witness :
  default (∅ : gmap string value)
    (heap initial_state !! anyio_command_default_options) =
  default ∅ (heap initial_state !! run_default_options) /\
  call (_wrap hello None (Some anyio_command_default_options)) [] []
    initial_state =
  call (_wrap hello None (Some run_default_options)) [] [] initial_state.
Proof.
  split; [reflexivity |].
  apply (only_the_content_of_options_matters hello None
           anyio_command_default_options run_default_options [] []
           initial_state).
  reflexivity.
Defined.

(** ** The application object and its registrations *)

(** X7. [AnyioTyper] passes every constructor keyword on under its own
    name: the application it builds is the dispatcher's application built
    from the same keywords, and it starts with no command and no callback. *)
Theorem AnyioTyper_forwards_constructor_keywords (kw : typer_kwargs) :
  AnyioTyper kw = Typer_init kw /\
  typer_init (AnyioTyper kw) = kw /\
  registered_commands (AnyioTyper kw) = [] /\
  registered_callback (AnyioTyper kw) = None.
Proof. destruct kw. repeat split. Qed.

(** X8. Registering a command through the facade adds exactly one command
    after the ones already registered, which stay as they were and in the
    same order, and leaves the constructor configuration and the registered
    callback alone. *)
Theorem anyio_command_keeps_earlier_registrations
    (name backend : option string) (options : option loc)
    (kw : command_kwargs) (F : async_function) (self : Typer) :
  let after := snd (anyio_command name backend options kw F self) in
  take (length (registered_commands self)) (registered_commands after) =
    registered_commands self /\
  length (registered_commands after) =
    S (length (registered_commands self)) /\
  registered_callback after = registered_callback self /\
  typer_init after = typer_init self.
Proof.
  destruct kw. simpl.
  split; [apply take_app_length |].
  split; [rewrite length_app; simpl; lia |].
  split; reflexivity.
Qed.

(** X9. Registering a callback through the facade replaces whatever
    callback was registered before, so of two registrations the later one
    stands, and it leaves the commands and the constructor configuration
    alone. *)
Theorem anyio_callback_replaces_the_callback
    (backend1 backend2 : option string) (options1 options2 : option loc)
    (kw1 kw2 : callback_kwargs) (F1 F2 : async_function) (self : Typer) :
  let first := snd (anyio_callback backend1 options1 kw1 F1 self) in
  let second := snd (anyio_callback backend2 options2 kw2 F2 first) in
  second = snd (anyio_callback backend2 options2 kw2 F2 self) /\
  registered_commands second = registered_commands self /\
  typer_init second = typer_init self /\
  ti_callback <$> registered_callback second =
    Some (_wrap F2 (Some (default "asyncio" backend2))
            (Some (default anyio_callback_default_options options2))).
Proof. destruct kw1, kw2. repeat split. Qed.

(** ** The deprecated entry points are pre-filled calls *)

(** X10. [trio_command] issues its deprecation warning and otherwise is
    [anyio_command] with the backend "trio" and [options] left out: the
    wrapper it registers holds the default dict of [anyio_command], the one
    that plain [anyio_command] registrations without options hold too. *)
Theorem trio_command_is_anyio_command_on_trio
    (name : option string) (kw : command_kwargs) (F : async_function)
    (self : Typer) (p : process_state) :
  fst (trio_command name kw p) F self =
    anyio_command name (Some "trio") None kw F self /\
  last (registered_commands (snd (fst (trio_command name kw p) F self))) =
    Some (MkCommandInfo name kw
            (_wrap F (Some "trio") (Some anyio_command_default_options))) /\
  thread (snd (trio_command name kw p)) = thread p /\
  warnings (snd (trio_command name kw p)) =
    warnings p ++ [Warning "DeprecationWarning" trio_command_message].
Proof.
  destruct kw. unfold trio_command, deprecated. simpl.
  split; [reflexivity |].
  split; [apply last_snoc |].
  split; reflexivity.
Qed.

(** X11. [uvloop_command] issues its deprecation warning and otherwise is
    [anyio_command] with the backend "asyncio" and a dict object that did
    not exist before the call, holding the single item [use_uvloop] set to
    True; no existing dict is changed. *)
Theorem uvloop_command_registers_with_a_new_dict
    (name : option string) (kw : command_kwargs) (F : async_function)
    (self : Typer) (p : process_state) :
  exists l : loc,
    (l ∉ dom (heap (thread p))) /\
    fst (uvloop_command name kw p) F self =
      anyio_command name (Some "asyncio") (Some l) kw F self /\
    last (registered_commands
            (snd (fst (uvloop_command name kw p) F self))) =
      Some (MkCommandInfo name kw (_wrap F (Some "asyncio") (Some l))) /\
    heap (thread (snd (uvloop_command name kw p))) =
      <[l := {["use_uvloop" := VBool true]}]> (heap (thread p)) /\
    current_async_library (thread (snd (uvloop_command name kw p))) =
      current_async_library (thread p) /\
    stdout (thread (snd (uvloop_command name kw p))) = stdout (thread p) /\
    warnings (snd (uvloop_command name kw p)) =
      warnings p ++ [Warning "DeprecationWarning" uvloop_command_message].
Proof.
  exists (fresh (dom (heap (thread p)))).
  destruct kw. unfold uvloop_command, deprecated, new_dict. simpl.
  split; [apply is_fresh |].
  split; [reflexivity |].
  split; [apply last_snoc |].
  repeat split.
Qed.

(** X12. Two uses of [uvloop_command] never share their options: the two
    registered wrappers hold different dict objects, each with its own
    [use_uvloop] item. *)
Theorem uvloop_commands_hold_distinct_dicts
    (name1 name2 : option string) (kw1 kw2 : command_kwargs)
    (F1 F2 : async_function) (self : Typer) (p : process_state) :
  let decorator1 := fst (uvloop_command name1 kw1 p) in
  let p1 := snd (uvloop_command name1 kw1 p) in
  let decorator2 := fst (uvloop_command name2 kw2 p1) in
  let p2 := snd (uvloop_command name2 kw2 p1) in
  exists l1 l2 : loc,
    l1 <> l2 /\
    registered_commands (snd (decorator2 F2 (snd (decorator1 F1 self)))) =
      registered_commands self ++
      [MkCommandInfo name1 kw1 (_wrap F1 (Some "asyncio") (Some l1));
       MkCommandInfo name2 kw2 (_wrap F2 (Some "asyncio") (Some l2))] /\
    heap (thread p2) !! l1 = Some {["use_uvloop" := VBool true]} /\
    heap (thread p2) !! l2 = Some {["use_uvloop" := VBool true]}.
Proof.
  intros decorator1 p1 decorator2 p2.
  set (h := heap (thread p)).
  set (l1 := fresh (dom h)).
  set (h1 := <[l1 := ({["use_uvloop" := VBool true]} : gmap string value)]> h).
  set (l2 := fresh (dom h1)).
  assert (Hne : l1 <> l2).
  { intros Heq. apply (is_fresh (dom h1)). fold l2. rewrite <- Heq.
    unfold h1. rewrite dom_insert_L. set_solver. }
  exists l1, l2.
  subst decorator1 p1 decorator2 p2.
  destruct kw1, kw2. unfold uvloop_command, deprecated, new_dict. simpl.
  fold h. fold l1. fold h1. fold l2.
  split; [exact Hne |].
  split; [rewrite <- app_assoc; reflexivity |].
  split.
  - rewrite lookup_insert_ne by (intros Heq; apply Hne; symmetry; exact Heq).
    unfold h1. apply lookup_insert_eq.
  - apply lookup_insert_eq.
Qed.

(** X13. On an idle thread, the wrapper that [uvloop_command] registers
    runs its handler on a fresh asyncio loop configured with exactly
    [use_uvloop] set to True. *)
Theorem uvloop_command_wrapper_runs_with_uvloop
    (name : option string) (kw : command_kwargs) (F : async_function)
    (self : Typer) (p : process_state)
    (args : list value) (kwargs : list (string * value)) :
  current_async_library (thread p) = None ->
  exists G,
    ci_callback <$>
      last (registered_commands
              (snd (fst (uvloop_command name kw p) F self))) = Some G /\
    call G args kwargs (thread (snd (uvloop_command name kw p))) =
    run_on_fresh_loop
      (EventLoop "asyncio" {["use_uvloop" := VBool true]})
      (af_body F args kwargs) (thread (snd (uvloop_command name kw p))).
Proof.
  intros Hidle.
  exists (_wrap F (Some "asyncio") (Some (fresh (dom (heap (thread p)))))).
  destruct kw. unfold uvloop_command, deprecated, new_dict. simpl.
  split; [rewrite last_snoc; reflexivity |].
  rewrite call_wrap. simpl.
  rewrite sync_func_runs; [| exact Hidle | exact asyncio_known].
  simpl. rewrite lookup_insert_eq. reflexivity.
Qed.

Lemma uvloop_command_wrapper_runs_with_uvloop_witness :
  current_async_library (thread initial_process) = None /\
  exists G,
    ci_callback <$>
      last (registered_commands
              (snd (fst (uvloop_command None anyio_command_defaults
                           initial_process)
                      uses_uvloop (AnyioTyper (run_app_kwargs None))))) =
      Some G /\
    fst (call G [] []
           (thread (snd (uvloop_command None anyio_command_defaults
                           initial_process)))) =
    Ok (VBool true).
Proof.
  split; [reflexivity |].
  destruct (uvloop_command_wrapper_runs_with_uvloop None
              anyio_command_defaults uses_uvloop
              (AnyioTyper (run_app_kwargs None)) initial_process [] [])
    as (G & Hregistered & Hruns); [reflexivity |].
  exists G. split; [exact Hregistered |].
  rewrite Hruns. vm_compute. reflexivity.
Defined.

(** What [run] hands to the dispatcher, and what it makes of the answer. *)
Lemma run_dispatches
    (DEFAULT_MARKUP_MODE : option string) (Typer_call : Typer -> M value)
    (function : async_function) (backend : option string)
    (options : option loc) (w : thread_state) :
  run DEFAULT_MARKUP_MODE Typer_call function backend options w =
  match
    Typer_call
      (MkTyper (run_app_kwargs DEFAULT_MARKUP_MODE)
         [MkCommandInfo None anyio_command_defaults
            (_wrap function (Some (default "asyncio" backend))
               (Some (default run_default_options options)))] None) w
  with
  | (Ok _, w') => (Ok VNone, w')
  | (Exc e, w') => (Exc e, w')
  end.
Proof.
  set (app := MkTyper _ _ _).
  assert (Hregistered :
    anyio_command None (Some (default "asyncio" backend))
      (Some (default run_default_options options)) anyio_command_defaults
      function (AnyioTyper (run_app_kwargs DEFAULT_MARKUP_MODE)) =
    (function, app)) by reflexivity.
  unfold run. cbv zeta. rewrite Hregistered. unfold bind, ret.
  destruct (Typer_call app w) as [[v | e] w']; reflexivity.
Qed.

(** X14. [trio_run] issues its deprecation warning and otherwise is [run]
    with the backend "trio" and [options] left out: the dispatcher is handed
    the application whose only command is the handler's wrapper for trio,
    holding the default dict of [run]; [trio_run] returns None when the
    dispatcher returns and lets its exception through. *)
Theorem trio_run_is_run_on_trio
    (DEFAULT_MARKUP_MODE : option string) (Typer_call : Typer -> M value)
    (function : async_function) (p : process_state) :
  let issued :=
    warnings p ++ [Warning "DeprecationWarning" trio_run_message] in
  trio_run DEFAULT_MARKUP_MODE Typer_call function p =
  match
    Typer_call
      (MkTyper (run_app_kwargs DEFAULT_MARKUP_MODE)
         [MkCommandInfo None anyio_command_defaults
            (_wrap function (Some "trio") (Some run_default_options))] None)
      (thread p)
  with
  | (Ok _, t) => (Ok VNone, ProcessState t issued)
  | (Exc e, t) => (Exc e, ProcessState t issued)
  end.
Proof.
  intros issued. unfold trio_run, deprecated, on_thread, bind, ret.
  cbn [thread warnings warn].
  rewrite run_dispatches. cbn [default].
  destruct (Typer_call _ (thread p)) as [[v | e] t]; reflexivity.
Qed.

(** X15. [uvloop_run] issues its deprecation warning and otherwise is [run]
    with the backend "asyncio" and a dict object that did not exist before
    the call, holding the single item [use_uvloop] set to True: that dict is
    in the heap when the dispatcher starts, and the handler's wrapper holds
    it. *)
Theorem uvloop_run_is_run_with_a_new_dict
    (DEFAULT_MARKUP_MODE : option string) (Typer_call : Typer -> M value)
    (function : async_function) (p : process_state) :
  let issued :=
    warnings p ++ [Warning "DeprecationWarning" uvloop_run_message] in
  exists l : loc,
    (l ∉ dom (heap (thread p))) /\
    uvloop_run DEFAULT_MARKUP_MODE Typer_call function p =
    match
      Typer_call
        (MkTyper (run_app_kwargs DEFAULT_MARKUP_MODE)
           [MkCommandInfo None anyio_command_defaults
              (_wrap function (Some "asyncio") (Some l))] None)
        (set_heap (<[l := {["use_uvloop" := VBool true]}]> (heap (thread p)))
           (thread p))
    with
    | (Ok _, t) => (Ok VNone, ProcessState t issued)
    | (Exc e, t) => (Exc e, ProcessState t issued)
    end.
Proof.
  intros issued. exists (fresh (dom (heap (thread p)))).
  split; [apply is_fresh |].
  unfold uvloop_run, deprecated, on_thread, new_dict, bind, ret.
  cbn [thread warnings warn].
  rewrite run_dispatches. cbn [default].
  destruct (Typer_call _ _) as [[v | e] t]; reflexivity.
Qed.
